(** * AI-Jersey: the image-geometry pipeline of the jersey template server

    A shallow embedding of [getContentBounds] and [processJerseyImage]
    (server module) and of [createTightJerseyTemplate] (standalone script,
    process-jersey.js), followed by the properties of the scanner, the
    trimmer, the mirror and the stacking arithmetic.  The upload filter, the
    error middleware and the two image routes of the server are embedded
    over a [Platform] record that stands for Node, Express, multer and
    sharp.

    Conventions.
    - Pixel coordinates and buffer indices are [nat]: every loop of the
      source starts at 0 or counts down to 0.  Quantities that the source
      lets go negative (layer offsets, derived heights, the canvas height)
      are [Z].
    - A decoded image is the object sharp returns from
      [raw().toBuffer({resolveWithObject: true})]: [info.width],
      [info.height], [info.channels] and the byte buffer [data].
      Reading a typed array out of range yields [undefined] in JavaScript,
      and [undefined > t] is false; [nth_error] and [exceeds] keep that.
    - [Math.floor] is taken over the rationals.  The operands are image
      dimensions, for which multiplying by 0.5 and halving are exact in
      double precision.
    - Calls into the sharp library (decode, trim, extract, flip, resize,
      composite, png) are outside the repository.  Decoding and the generic
      trim are inputs of the model; [extract] and [flip] are modelled from
      their documented behaviour; the final canvas is represented by the
      request handed to [sharp({create}).composite(...)].  What sharp
      itself refuses (a canvas without positive size, a layer larger than
      the canvas) is stated by [sharpComposes] and taken as a hypothesis
      where a property speaks of rendered outputs. *)

From Stdlib Require Import String.
From Stdlib Require Import List ZArith QArith Qround Lia Bool Arith.
Import ListNotations.

Close Scope Q_scope.
Set Implicit Arguments.

(** ** Data model *)

Module Raster.
(** [info] and [data] of a decoded image. *)
Record t : Type := mk
  { width : nat; height : nat; channels : nat; data : list Z }.

(** The buffer holds exactly [width * height * channels] bytes. *)
Definition wf (img : t) : Prop :=
  length (data img) = height img * (width img * channels img).
End Raster.

Module Bounds.
(** The object literal returned by [getContentBounds]. *)
Record t : Type := mk
  { top : Z; bottom : Z; left : Z; right : Z; height : Z; width : Z }.
End Bounds.

(** The locals of the scanning loops. *)
Record Scan : Type := mkScan
  { minX : nat; minY : nat; maxX : nat; maxY : nat; hasContent : bool }.

(** ** The scanning loops *)

(** [const alpha = channels === 4 ? data[idx + 3] : 255]
    with [idx = (y * info.width + x) * channels]. *)
Definition alphaAt (img : Raster.t) (x y : nat) : option Z :=
  let idx := (y * Raster.width img + x) * Raster.channels img in
  if Raster.channels img =? 4 then nth_error (Raster.data img) (idx + 3)
  else Some 255%Z.

(** [alpha > alphaThreshold], where [alpha] may be [undefined]. *)
Definition exceeds (alpha : option Z) (alphaThreshold : Z) : bool :=
  match alpha with
  | Some a => (alphaThreshold <? a)%Z
  | None => false
  end.

Definition isContent (img : Raster.t) (alphaThreshold : Z) (x y : nat) : bool :=
  exceeds (alphaAt img x y) alphaThreshold.

(** [for (i of range) { if (!guard) break-out; body }]: a bounded loop whose
    condition also tests the state. *)
Fixpoint forWhile (S : Type) (guard : S -> bool) (body : nat -> S -> S)
    (range : list nat) (s : S) : S :=
  match range with
  | [] => s
  | i :: range' => if guard s then forWhile guard body range' (body i s) else s
  end.

(** [n-1, n-2, ..., 0]: the values taken by [for (let i = n - 1; i >= 0; i--)]. *)
Fixpoint countdown (n : nat) : list nat :=
  match n with
  | 0 => []
  | S n' => n' :: countdown n'
  end.

(** The inner loops: walk a row (resp. the rows [minY..maxY] of a column) and
    [break] at the first pixel above the threshold. *)
Definition hitRow (img : Raster.t) (t : Z) (y : nat) : bool :=
  existsb (fun x => isContent img t x y) (seq 0 (Raster.width img)).

Definition hitCol (img : Raster.t) (t : Z) (lo hi : nat) (x : nat) : bool :=
  existsb (fun y => isContent img t x y) (seq lo (S hi - lo)).

(** The body shared by the four outer loops: on a hit, assign the edge
    variable and raise [hasContent]. *)
Definition edgeBody (hit : nat -> bool) (i : nat) (s : nat * bool) : nat * bool :=
  if hit i then (i, true) else s.

(** [for (let i = 0; i < n && edge === n; i++)], [edge] initially [n]. *)
Definition scanForward (hit : nat -> bool) (n : nat) (hc : bool) : nat * bool :=
  forWhile (fun s => fst s =? n) (edgeBody hit) (seq 0 n) (n, hc).

(** [for (let i = n - 1; i >= 0 && edge === 0; i--)], [edge] initially [0]. *)
Definition scanBackward (hit : nat -> bool) (n : nat) (hc : bool) : nat * bool :=
  forWhile (fun s => fst s =? 0) (edgeBody hit) (countdown n) (0, hc).

(** The four loops, in source order: top, bottom, left, right.  They occur
    verbatim in [getContentBounds] (threshold 1, no flag) and in the custom
    trim of [processJerseyImage] (threshold 5, with [hasContent]). *)
Definition scanEdges (img : Raster.t) (alphaThreshold : Z) : Scan :=
  let w := Raster.width img in
  let h := Raster.height img in
  let '(minY, hc) := scanForward (hitRow img alphaThreshold) h false in
  let '(maxY, hc) := scanBackward (hitRow img alphaThreshold) h hc in
  let '(minX, hc) := scanForward (hitCol img alphaThreshold minY maxY) w hc in
  let '(maxX, hc) := scanBackward (hitCol img alphaThreshold minY maxY) w hc in
  {| minX := minX; minY := minY; maxX := maxX; maxY := maxY; hasContent := hc |}.

Definition boundsOfScan (s : Scan) : Bounds.t :=
  {| Bounds.top := Z.of_nat (minY s);
     Bounds.bottom := Z.of_nat (maxY s);
     Bounds.left := Z.of_nat (minX s);
     Bounds.right := Z.of_nat (maxX s);
     Bounds.height := Z.of_nat (maxY s) - Z.of_nat (minY s) + 1;
     Bounds.width := Z.of_nat (maxX s) - Z.of_nat (minX s) + 1 |}.

(** [getContentBounds] with its threshold made a parameter. *)
Definition getContentBoundsAt (alphaThreshold : Z) (img : Raster.t) : Bounds.t :=
  boundsOfScan (scanEdges img alphaThreshold).

(** [const alphaThreshold = 1; // Consider pixels with alpha > 1 as content] *)
Definition getContentBounds (img : Raster.t) : Bounds.t :=
  getContentBoundsAt 1 img.

(** ** Library routines the pipeline calls *)

(** The rows of a buffer: [n] consecutive runs of [stride] bytes. *)
Fixpoint rowsOf (stride n : nat) (bytes : list Z) : list (list Z) :=
  match n with
  | 0 => []
  | S n' => firstn stride bytes :: rowsOf stride n' (skipn stride bytes)
  end.

Definition rows (img : Raster.t) : list (list Z) :=
  rowsOf (Raster.width img * Raster.channels img) (Raster.height img)
         (Raster.data img).

(** Modelled from the spec: [sharp(buffer).flip()] is a routine of the sharp
    library, which is not under src/.  Section 4.3: a new image with
    identical dimensions and channel layout, rows reversed top-to-bottom,
    every pixel's bytes kept as they are. *)
Definition flip (img : Raster.t) : Raster.t :=
  {| Raster.width := Raster.width img;
     Raster.height := Raster.height img;
     Raster.channels := Raster.channels img;
     Raster.data := concat (rev (rows img)) |}.

(** Modelled from the spec: [sharp(...).extract({left, top, width, height})]
    is a routine of the sharp library, which is not under src/.  Section 4.2:
    direct pixel-region extraction, here the rows [top .. top+height-1] cut
    to the columns [left .. left+width-1]. *)
Definition extract (img : Raster.t) (left top width height : nat) : Raster.t :=
  let c := Raster.channels img in
  {| Raster.width := width;
     Raster.height := height;
     Raster.channels := c;
     Raster.data :=
       concat (map (fun row => firstn (width * c) (skipn (left * c) row))
                   (firstn height (skipn top (rows img)))) |}.

(** [Math.floor]. *)
Definition Math_floor (q : Q) : Z := Qfloor q.

(** ** Files, errors and results *)

(** What the file system and sharp's decoder make of a path. *)
Inductive FileState (A : Type) : Type :=
| Missing              (* [fs.existsSync(path)] is false *)
| Corrupt              (* the file exists, sharp cannot read it *)
| Readable (a : A).    (* sharp decodes it to [a] *)

Arguments Missing {A}.
Arguments Corrupt {A}.

Definition existsSync (A : Type) (f : FileState A) : bool :=
  match f with
  | Missing => false
  | _ => true
  end.

(** The exceptions sharp raises when it opens a file. *)
Inductive SharpError : Type :=
| InputFileIsMissing
| UnsupportedImageFormat.

(** [new Error(`Image processing failed: ${error.message}`)]. *)
Inductive ProcessingError : Type :=
| ImageProcessingFailed (cause : SharpError).

Inductive Result (E A : Type) : Type :=
| Ok (a : A)
| Throw (e : E).

Arguments Ok {E A}.
Arguments Throw {E A}.

Definition bind (E A B : Type) (m : Result E A) (k : A -> Result E B)
    : Result E B :=
  match m with
  | Ok a => k a
  | Throw e => Throw e
  end.

Notation "x <- m ;; k" := (bind m (fun x => k))
  (at level 61, m at next level, right associativity).

(** [try { body } catch (error) { throw handler(error) }]. *)
Definition tryCatch (E E' A : Type) (body : Result E A) (handler : E -> E')
    : Result E' A :=
  match body with
  | Ok a => Ok a
  | Throw e => Throw (handler e)
  end.

(** [sharp(path)] followed by an awaited read ([metadata()], [toBuffer()]). *)
Definition sharp_open (A : Type) (f : FileState A) : Result SharpError A :=
  match f with
  | Missing => Throw InputFileIsMissing
  | Corrupt => Throw UnsupportedImageFormat
  | Readable a => Ok a
  end.

(** ** The collar *)

(** [collarMeta]: the dimensions of the collar file. *)
Record Meta : Type := mkMeta { metaWidth : Z; metaHeight : Z }.

Inductive Kernel : Type := lanczos3.

(** The buffer produced by [collarImage.resize(w, h, {kernel}).toBuffer()],
    kept as the resize request: resampling is sharp's. *)
Record Resized : Type := mkResized
  { resizeSource : Meta; resizeWidth : Z; resizeHeight : Z; resizeKernel : Kernel }.

(** The collar locals: [collarBuffer], [collarWidth], [collarHeight],
    [collarLeft].  ([collarTop] is assigned only while composing.) *)
Record Collar : Type := mkCollar
  { collarBuffer : option Resized;
    collarWidth : Z; collarHeight : Z; collarLeft : Z }.

(** [let collarBuffer = null; let collarWidth = 0; ...] *)
Definition noCollar : Collar :=
  {| collarBuffer := None; collarWidth := 0; collarHeight := 0; collarLeft := 0 |}.

(** The body of the collar [if]: halve, resize, centre horizontally. *)
Definition loadCollar (collarMeta : Meta) (width : Z) : Collar :=
  let collarWidth := Math_floor (inject_Z (metaWidth collarMeta) * (1 # 2)) in
  let collarHeight := Math_floor (inject_Z (metaHeight collarMeta) * (1 # 2)) in
  {| collarBuffer :=
       Some {| resizeSource := collarMeta; resizeWidth := collarWidth;
               resizeHeight := collarHeight; resizeKernel := lanczos3 |};
     collarWidth := collarWidth;
     collarHeight := collarHeight;
     collarLeft := Math_floor (inject_Z (width - collarWidth) / inject_Z 2) |}.

(** Server module: [if (collarPath && fs.existsSync(collarPath)) { ... }],
    with nothing between the [await]s and the function's outer [catch]. *)
Definition prepareCollar (collarPath : option (FileState Meta)) (width : Z)
    : Result SharpError Collar :=
  match collarPath with
  | None => Ok noCollar
  | Some file =>
      if existsSync file then
        collarMeta <- sharp_open file ;;
        Ok (loadCollar collarMeta width)
      else Ok noCollar
  end.

(** Standalone script: the same block inside its own
    [try { ... } catch (collarError) { console.log(...) }]. *)
Definition prepareCollarLogged (collar : FileState Meta) (width : Z) : Collar :=
  match prepareCollar (Some collar) width with
  | Ok c => c
  | Throw _ => noCollar
  end.

(** ** Stacking *)

Record Layout : Type := mkLayout
  { backTop : Z; backBottomContentY : Z; frontTop : Z;
    frontBottomContentY : Z; totalHeight : Z }.

(** Step 5 of [processJerseyImage], line by line. *)
Definition stackLayout (backBounds frontBounds : Bounds.t) (gapBetweenImages : Z)
    : Layout :=
  let backTop := (0 - Bounds.top backBounds)%Z in
  let backBottomContentY := (backTop + Bounds.bottom backBounds)%Z in
  let frontTop :=
    (backBottomContentY + gapBetweenImages - Bounds.top frontBounds)%Z in
  let frontBottomContentY := (frontTop + Bounds.bottom frontBounds)%Z in
  let totalHeight := (frontBottomContentY + 1)%Z in
  {| backTop := backTop; backBottomContentY := backBottomContentY;
     frontTop := frontTop; frontBottomContentY := frontBottomContentY;
     totalHeight := totalHeight |}.

Inductive LayerInput : Type :=
| Jersey (img : Raster.t)
| CollarOverlay (buf : Resized).

Module Layer.
(** An entry of [compositeLayers]. *)
Record t : Type := mk { input : LayerInput; top : Z; left : Z }.
End Layer.

(** [sharp({create: {width, height, channels: 4, background}})
       .composite(compositeLayers)]. *)
Record Composite : Type := mkComposite
  { createWidth : Z; createHeight : Z; compositeLayers : list Layer.t }.

(** Steps 5 and 6: lay the two sides out, centre the collar vertically now
    that [totalHeight] is known, and build the composite. *)
Definition stackAndCompose (backSide frontSide : Raster.t)
    (backBounds frontBounds : Bounds.t) (collar : Collar)
    (gapBetweenImages : Z) (width : Z) : Composite :=
  let lay := stackLayout backBounds frontBounds gapBetweenImages in
  let jersey :=
    [ {| Layer.input := Jersey backSide; Layer.top := backTop lay; Layer.left := 0 |};
      {| Layer.input := Jersey frontSide; Layer.top := frontTop lay; Layer.left := 0 |} ] in
  let layers :=
    match collarBuffer collar with
    | Some buf =>
        let collarTop :=
          Math_floor (inject_Z (totalHeight lay - collarHeight collar) / inject_Z 2) in
        jersey ++ [ {| Layer.input := CollarOverlay buf; Layer.top := collarTop;
                       Layer.left := collarLeft collar |} ]
    | None => jersey
    end in
  {| createWidth := width; createHeight := totalHeight lay;
     compositeLayers := layers |}.

(** [gapBetweenImages = -18]: the parameter's default and the script's constant. *)
Definition defaultGap : Z := (-18)%Z.

(** ** The pipeline *)

Section Pipeline.

(** [inputImage.trim({ threshold: 0 })]: sharp's generic border trim. *)
Variable sharp_trim : Raster.t -> Raster.t.

(** Step 1.  The generic trim first; when it leaves both dimensions as they
    were, the edge scan with threshold 5 and, for non-degenerate bounds
    smaller than the frame, an [extract].  The result stands for
    [trimmedBuffer]; its dimensions are the locals [width] and [height].
    The scan and the [extract] read [inputImage], as the source writes them;
    sharp's builder object also carries the pending trim there, which on
    this branch left the dimensions unchanged, and the raw output mode set
    by [raw()]: the crop stands for the region the source asks for, not for
    the headerless buffer that object then produces. *)
Definition trimStage (img : Raster.t) : Raster.t :=
  let trimmed := sharp_trim img in
  if (Raster.width img =? Raster.width trimmed)
     && (Raster.height img =? Raster.height trimmed)
  then
    let s := scanEdges img 5 in
    if hasContent s && (minX s <? maxX s) && (minY s <? maxY s) then
      let contentWidth := maxX s - minX s + 1 in
      let contentHeight := maxY s - minY s + 1 in
      if (0 <? minX s) || (0 <? minY s)
         || (Z.of_nat (maxX s) <? Z.of_nat (Raster.width img) - 1)%Z
         || (Z.of_nat (maxY s) <? Z.of_nat (Raster.height img) - 1)%Z
      then extract img (minX s) (minY s) contentWidth contentHeight
      else trimmed
    else trimmed
  else trimmed.

(** Steps 2 to 6, given the decoded input and the collar step to use. *)
Definition buildTemplate (img : Raster.t)
    (collarStep : Z -> Result SharpError Collar) (gapBetweenImages : Z)
    : Result SharpError Composite :=
  let trimmedBuffer := trimStage img in
  let width := Z.of_nat (Raster.width trimmedBuffer) in
  let backSide := flip trimmedBuffer in
  let frontSide := trimmedBuffer in
  let backBounds := getContentBounds backSide in
  let frontBounds := getContentBounds frontSide in
  collar <- collarStep width ;;
  Ok (stackAndCompose backSide frontSide backBounds frontBounds collar
                      gapBetweenImages width).

(** Server module:
    [async function processJerseyImage(inputPath, collarPath = null,
                                        gapBetweenImages = -18)]. *)
Definition processJerseyImage (inputPath : FileState Raster.t)
    (collarPath : option (FileState Meta)) (gapBetweenImages : Z)
    : Result ProcessingError Composite :=
  tryCatch
    (img <- sharp_open inputPath ;;
     buildTemplate img (prepareCollar collarPath) gapBetweenImages)
    ImageProcessingFailed.

(** Standalone script: [createTightJerseyTemplate()], whose paths are fixed;
    [Throw] stands for its [process.exit(1)].  Its nested [getContentBounds]
    has the row loops of the server's and returns [top], [bottom] and
    [height] only, the fields the stacking reads. *)
Definition createTightJerseyTemplate (input : FileState Raster.t)
    (collar : FileState Meta) : Result ProcessingError Composite :=
  tryCatch
    (img <- sharp_open input ;;
     buildTemplate img (fun width => Ok (prepareCollarLogged collar width))
                   defaultGap)
    ImageProcessingFailed.

End Pipeline.

(** ** The HTTP routes *)

(** What the routes take from Node, Express, multer, uuid and sharp.  None of
    it is under src/; the routes are modelled over any such platform. *)
Record Platform : Type := mkPlatform
  { (* [inputImage.trim({ threshold: 0 })] *)
    sharpTrim : Raster.t -> Raster.t;
    (* the raster a written PNG of the composite decodes to *)
    render : Composite -> Raster.t;
    (* [parseInt(string)]; [None] is NaN *)
    parseInt : string -> option Z;
    (* what [processJerseyImage] does when the gap is NaN *)
    pipelineOnNaN : FileState Raster.t -> option (FileState Meta)
                    -> Result ProcessingError Composite;
    (* [path.join(dir, name)] *)
    path_join : string -> string -> string;
    (* [path.join(__dirname, 'outputs')] *)
    outputsDir : string;
    (* [path.join(__dirname, '..', 'Jersey-Collar.png')] *)
    collarFile : string;
    (* [error.message] of sharp's exceptions and of a failed unlink *)
    sharpMessage : SharpError -> string;
    unlinkMessage : string -> string;
    (* [path.extname] and [String.prototype.toLowerCase] *)
    path_extname : string -> string;
    toLowerCase : string -> string }.

(** The files on disk, by path: what [fs.existsSync] and sharp make of
    each. *)
Definition Disk : Type := string -> FileState Raster.t.

Definition writeDisk (disk : Disk) (path : string) (f : FileState Raster.t) : Disk :=
  fun p => if String.eqb p path then f else disk p.

(** [collarImage.metadata()]: the dimensions of an image file. *)
Definition metadataOf (f : FileState Raster.t) : FileState Meta :=
  match f with
  | Missing => Missing
  | Corrupt => Corrupt
  | Readable r =>
      Readable {| metaWidth := Z.of_nat (Raster.width r);
                  metaHeight := Z.of_nat (Raster.height r) |}
  end.

(** What can be thrown inside the route's [try]. *)
Inductive HandlerError : Type :=
| PipelineFailed (e : ProcessingError)
| NoSuchFile (path : string).

(** [fs.unlinkSync(path)], which throws when there is no such file. *)
Definition unlinkSync (disk : Disk) (path : string) : Result HandlerError Disk :=
  if existsSync (disk path) then Ok (writeDisk disk path Missing)
  else Throw (NoSuchFile path).

Inductive Body : Type :=
| ErrorBody (error : string)                            (* [{ error }] *)
| FailureBody (error message : string)                  (* [{ error, message }] *)
| SuccessBody (message downloadUrl imageId : string)    (* [{ success: true, ... }] *)
| FileBody (path : string).                             (* [res.sendFile(path)] *)

(** [res.status(code).json(body)]; a bare [res.json] or [res.sendFile]
    answers 200. *)
Record Response : Type := mkResponse { statusCode : nat; body : Body }.

(** [req.file] (the stored upload's path), [req.body.gap], [req.protocol]
    and [req.get('host')]. *)
Record Request : Type := mkRequest
  { file : option string; bodyGap : option string;
    protocol : string; host : string }.

(** [value ? a : b] on a string or [undefined]: only the empty string and
    [undefined] are falsy. *)
Definition truthy (value : option string) : bool :=
  match value with
  | Some s => negb (String.eqb s "")
  | None => false
  end.

(** [req.body.gap ? parseInt(req.body.gap) : -18]. *)
Definition gapOf (P : Platform) (bodyGap : option string) : option Z :=
  match bodyGap with
  | Some s => if truthy bodyGap then parseInt P s else Some (-18)%Z
  | None => Some (-18)%Z
  end.

(** [error.message] in the route's [catch]. *)
Definition messageOf (P : Platform) (error : HandlerError) : string :=
  match error with
  | PipelineFailed (ImageProcessingFailed cause) =>
      String.append "Image processing failed: " (sharpMessage P cause)
  | NoSuchFile path => unlinkMessage P path
  end.

(** The call [processJerseyImage(inputPath, collarExists ? collarPath : null,
    gapBetweenImages)] against the disk. *)
Definition runPipeline (P : Platform) (disk : Disk) (inputPath : string)
    (gapBetweenImages : option Z) : Result ProcessingError Composite :=
  let collarExists := existsSync (disk (collarFile P)) in
  let collarPath :=
    if collarExists then Some (metadataOf (disk (collarFile P))) else None in
  match gapBetweenImages with
  | Some gap => processJerseyImage (sharpTrim P) (disk inputPath) collarPath gap
  | None => pipelineOnNaN P (disk inputPath) collarPath
  end.

(** The [catch] of the route: remove the upload if it is still there,
    answer 500. *)
Definition processJerseyCatch (P : Platform) (disk : Disk) (inputPath : string)
    (error : HandlerError) : Response * Disk :=
  let disk' :=
    if existsSync (disk inputPath) then writeDisk disk inputPath Missing
    else disk in
  ({| statusCode := 500;
      body := FailureBody "Failed to process image" (messageOf P error) |},
   disk').

(** [app.post('/api/process-jersey', upload.single('image'), ...)], run with
    the fresh [outputId] that [uuidv4()] returns. *)
Definition postProcessJersey (P : Platform) (disk : Disk) (req : Request)
    (outputId : string) : Response * Disk :=
  match file req with
  | None =>
      ({| statusCode := 400; body := ErrorBody "No image file provided" |}, disk)
  | Some inputPath =>
      let outputFilename := String.append outputId ".png" in
      let outputPath := path_join P (outputsDir P) outputFilename in
      let gapBetweenImages := gapOf P (bodyGap req) in
      match runPipeline P disk inputPath gapBetweenImages with
      | Throw e => processJerseyCatch P disk inputPath (PipelineFailed e)
      | Ok processedBuffer =>
          (* [await sharp(processedBuffer).toFile(outputPath)] *)
          let disk1 := writeDisk disk outputPath
                                 (Readable (render P processedBuffer)) in
          match unlinkSync disk1 inputPath with
          | Throw e => processJerseyCatch P disk1 inputPath e
          | Ok disk2 =>
              let baseUrl :=
                String.append (protocol req) (String.append "://" (host req)) in
              let downloadUrl :=
                String.append baseUrl (String.append "/outputs/" outputFilename) in
              ({| statusCode := 200;
                  body := SuccessBody "Jersey image processed successfully"
                                      downloadUrl outputId |},
               disk2)
          end
      end
  end.

(** [app.get('/api/image/:imageId', ...)]. *)
Definition getImage (P : Platform) (disk : Disk) (imageId : string) : Response :=
  let imagePath := path_join P (outputsDir P) (String.append imageId ".png") in
  if existsSync (disk imagePath) then
    {| statusCode := 200; body := FileBody imagePath |}
  else {| statusCode := 404; body := ErrorBody "Image not found" |}.

(** *** Upload filter and error middleware *)

(** [file.originalname] and [file.mimetype]. *)
Record UploadedFile : Type := mkUploadedFile
  { originalname : string; mimetype : string }.

(** Errors reaching the error middleware: [multer.MulterError] with its
    [code], or any other [Error]. *)
Inductive ServerError : Type :=
| MulterError (code message : string)
| PlainError (message : string).

(** [needle] occurs somewhere in [hay]. *)
Fixpoint includes (needle hay : string) : bool :=
  prefix needle hay
  || match hay with
     | EmptyString => false
     | String _ rest => includes needle rest
     end.

(** [const allowedTypes = /jpeg|jpg|png|gif|webp/]: an unanchored
    alternation of literals. *)
Definition allowedTypes : list string := ["jpeg"; "jpg"; "png"; "gif"; "webp"]%string.

(** [allowedTypes.test(s)]. *)
Definition allowedTypes_test (s : string) : bool :=
  existsb (fun alternative => includes alternative s) allowedTypes.

(** [fileFilter]: [cb(null, true)] or [cb(new Error(...))]. *)
Definition fileFilter (P : Platform) (f : UploadedFile) : Result ServerError bool :=
  let extname :=
    allowedTypes_test (toLowerCase P (path_extname P (originalname f))) in
  let mimetype := allowedTypes_test (mimetype f) in
  if mimetype && extname then Ok true
  else Throw (PlainError "Only image files are allowed!").

(** [app.use((error, req, res, next) => ...)]. *)
Definition errorMiddleware (error : ServerError) : Response :=
  match error with
  | MulterError code message =>
      if String.eqb code "LIMIT_FILE_SIZE" then
        {| statusCode := 400;
           body := ErrorBody "File too large. Maximum size is 10MB" |}
      else {| statusCode := 400; body := ErrorBody message |}
  | PlainError message =>
      {| statusCode := 500;
         body := ErrorBody (if truthy (Some message) then message
                            else "Internal server error") |}
  end.

(** ** Vocabulary of the properties *)

(** Some pixel of the frame is above the threshold. *)
Definition anyContent (img : Raster.t) (t : Z) : Prop :=
  exists x y, x < Raster.width img /\ y < Raster.height img
              /\ isContent img t x y = true.

(** No pixel of the frame is above the threshold. *)
Definition noContent (img : Raster.t) (t : Z) : Prop :=
  forall x y, x < Raster.width img -> y < Raster.height img ->
              isContent img t x y = false.

(** Every content pixel of the frame lies inside the scanned box. *)
Definition boxCovers (img : Raster.t) (t : Z) (s : Scan) : Prop :=
  forall x y, x < Raster.width img -> y < Raster.height img ->
              isContent img t x y = true ->
              minX s <= x <= maxX s /\ minY s <= y <= maxY s.

(** Each edge of the scanned box lies in the frame and carries a content
    pixel. *)
Definition boxTouches (img : Raster.t) (t : Z) (s : Scan) : Prop :=
  let w := Raster.width img in
  let h := Raster.height img in
  (minY s < h /\ exists x, x < w /\ isContent img t x (minY s) = true)
  /\ (maxY s < h /\ exists x, x < w /\ isContent img t x (maxY s) = true)
  /\ (minX s < w /\ exists y, y < h /\ isContent img t (minX s) y = true)
  /\ (maxX s < w /\ exists y, y < h /\ isContent img t (maxX s) y = true).

(** The result [getContentBounds] is left with when no loop assigns: the
    initial values [minX = info.width, minY = info.height, maxX = maxY = 0]. *)
Definition untouchedBounds (img : Raster.t) : Bounds.t :=
  boundsOfScan {| minX := Raster.width img; minY := Raster.height img;
                  maxX := 0; maxY := 0; hasContent := false |}.

(** [top <= bottom] and [left <= right]. *)
Definition validBounds (b : Bounds.t) : Prop :=
  (Bounds.top b <= Bounds.bottom b)%Z /\ (Bounds.left b <= Bounds.right b)%Z.

(** Canvas rows of the content edges that meet at the seam, and the topmost
    content row of the two jersey layers. *)
Definition backBottomRow (backBounds : Bounds.t) (lay : Layout) : Z :=
  (backTop lay + Bounds.bottom backBounds)%Z.

Definition backTopRow (backBounds : Bounds.t) (lay : Layout) : Z :=
  (backTop lay + Bounds.top backBounds)%Z.

Definition frontTopRow (frontBounds : Bounds.t) (lay : Layout) : Z :=
  (frontTop lay + Bounds.top frontBounds)%Z.

Definition topmostContentRow (backBounds frontBounds : Bounds.t) (lay : Layout) : Z :=
  Z.min (backTopRow backBounds lay) (frontTopRow frontBounds lay).

(** The pixels above the threshold are exactly the rectangle
    [left..right] x [top..bottom], fully opaque, on a fully transparent
    frame. *)
Definition opaqueRectangle (img : Raster.t) (top bottom left right : nat) : Prop :=
  top <= bottom < Raster.height img /\ left <= right < Raster.width img
  /\ forall x y, x < Raster.width img -> y < Raster.height img ->
       alphaAt img x y =
         Some (if (left <=? x) && (x <=? right) && (top <=? y) && (y <=? bottom)
               then 255%Z else 0%Z).

(** What sharp asks of a composite before it renders one: a canvas of
    positive size, and no layer larger than the canvas (a collar buffer must
    also have been resized to a positive size).  This is the library's
    behaviour, not code under src/; the properties of rendered outputs take
    it as a hypothesis. *)
Definition layerFits (canvas : Composite) (layer : Layer.t) : Prop :=
  match Layer.input layer with
  | Jersey img =>
      (Z.of_nat (Raster.width img) <= createWidth canvas)%Z
      /\ (Z.of_nat (Raster.height img) <= createHeight canvas)%Z
  | CollarOverlay buf =>
      (0 < resizeWidth buf <= createWidth canvas)%Z
      /\ (0 < resizeHeight buf <= createHeight canvas)%Z
  end.

Definition sharpComposes (canvas : Composite) : Prop :=
  (0 < createWidth canvas)%Z /\ (0 < createHeight canvas)%Z
  /\ Forall (layerFits canvas) (compositeLayers canvas).

(** All rows have [stride] bytes. *)
Definition uniform (stride : nat) (rs : list (list Z)) : Prop :=
  Forall (fun r => length r = stride) rs.

(** The trimmer's three reasons to hand its input back: the scan with
    threshold 5 found nothing, or a degenerate box, or a box that already
    spans the frame. *)
Definition degenerateScan (s : Scan) : Prop :=
  minX s >= maxX s \/ minY s >= maxY s.

Definition fillsFrame (img : Raster.t) (s : Scan) : Prop :=
  minX s = 0 /\ minY s = 0
  /\ Z.of_nat (maxX s) = (Z.of_nat (Raster.width img) - 1)%Z
  /\ Z.of_nat (maxY s) = (Z.of_nat (Raster.height img) - 1)%Z.

(** The bounds invariant as the data model words it: valid bounds, or else a
    sentinel that is not the box [top = height, bottom = 0]. *)
Definition sentinelNotConflated (img : Raster.t) : Prop :=
  let b := getContentBounds img in
  validBounds b
  \/ ~ (Bounds.top b = Z.of_nat (Raster.height img) /\ Bounds.bottom b = 0%Z).

(** The bounds of the mirror are the bounds of the image, reflected. *)
Definition mirroredBounds (t : Z) (img : Raster.t) : Prop :=
  let h := Z.of_nat (Raster.height img) in
  let frontBounds := getContentBoundsAt t img in
  let backBounds := getContentBoundsAt t (flip img) in
  Bounds.top backBounds = (h - 1 - Bounds.bottom frontBounds)%Z
  /\ Bounds.bottom backBounds = (h - 1 - Bounds.top frontBounds)%Z.

(** ** Sample inputs *)

Definition transparentPixel : list Z := [0; 0; 0; 0]%Z.
Definition opaquePixel : list Z := [0; 0; 0; 255]%Z.

(** A 1x1 image, fully transparent. *)
Definition blankImage : Raster.t :=
  Raster.mk 1 1 4 transparentPixel.

(** A 1x2 image, fully opaque. *)
Definition twoRows : Raster.t :=
  Raster.mk 1 2 4 (opaquePixel ++ opaquePixel).

(** A 3x4 image: an opaque 2x2 block at columns 1..2, rows 1..2. *)
Definition framedBlock : Raster.t :=
  Raster.mk 3 4 4
    (concat [ transparentPixel; transparentPixel; transparentPixel;
              transparentPixel; opaquePixel; opaquePixel;
              transparentPixel; opaquePixel; opaquePixel;
              transparentPixel; transparentPixel; transparentPixel ]).

(** A 2x3 image whose top row alone is opaque, with distinct colour bytes. *)
Definition topStripe : Raster.t :=
  Raster.mk 2 3 4
    [ 10; 20; 30; 255;  40; 50; 60; 255;
      1; 2; 3; 0;  4; 5; 6; 0;
      7; 8; 9; 0;  11; 12; 13; 0 ]%Z.

(** A 3x20 image, fully opaque. *)
Definition tallJersey : Raster.t :=
  Raster.mk 3 20 4 (concat (repeat opaquePixel 60)).

(** A 4x4 collar file. *)
Definition smallCollar : Meta := {| metaWidth := 4; metaHeight := 4 |}.

(** A generic trim that finds nothing to remove. *)
Definition trimNothing (img : Raster.t) : Raster.t := img.

(** A platform for the examples: no generic trim, every written PNG decodes
    to the 1x1 blank image, [parseInt] knows the string 12 only, paths are
    joined with a slash. *)
Definition samplePlatform : Platform :=
  {| sharpTrim := trimNothing;
     render := fun _ => blankImage;
     parseInt := fun s => if String.eqb s "12" then Some 12%Z else None;
     pipelineOnNaN :=
       fun _ _ => Throw (ImageProcessingFailed UnsupportedImageFormat);
     path_join := fun dir name => String.append dir (String.append "/" name);
     outputsDir := "outputs";
     collarFile := "Jersey-Collar.png";
     sharpMessage := fun _ => "unsupported image format"%string;
     unlinkMessage := fun _ => "no such file"%string;
     path_extname := fun name => name;
     toLowerCase := fun s => s |}.

(** A disk holding one upload, the 3x4 sample. *)
Definition sampleDisk : Disk :=
  fun path => if String.eqb path "uploads/u1-shirt.png" then Readable framedBlock
              else Missing.

(** A disk holding two uploads: the 3x20 sample and a file that does not
    decode. *)
Definition galleryDisk : Disk :=
  fun path =>
    if String.eqb path "uploads/u2-tall.png" then Readable tallJersey
    else if String.eqb path "uploads/u3-broken.png" then Corrupt
    else Missing.

Definition tallRequest : Request :=
  {| file := Some "uploads/u2-tall.png"%string; bodyGap := None;
     protocol := "http"; host := "localhost:3000" |}.

Definition brokenRequest : Request :=
  {| file := Some "uploads/u3-broken.png"%string; bodyGap := None;
     protocol := "http"; host := "localhost:3000" |}.

Definition sampleRequest : Request :=
  {| file := Some "uploads/u1-shirt.png"%string; bodyGap := None;
     protocol := "http"; host := "localhost:3000" |}.

(** ** The edge loops *)

Section EdgeLoops.

Variable hit : nat -> bool.

Lemma forWhile_stop (S : Type) (guard : S -> bool) (body : nat -> S -> S)
    (range : list nat) (s : S) :
  guard s = false -> forWhile guard body range s = s.
Proof.
  intros Hg. destruct range as [|i range]; simpl; [reflexivity|].
  now rewrite Hg.
Qed.

Lemma forward_from (n k : nat) : forall a hc,
  a + k = n ->
  let r := forWhile (fun s => fst s =? n) (edgeBody hit) (seq a k) (n, hc) in
  (r = (n, hc) /\ forall i, a <= i < n -> hit i = false)
  \/ (exists j, r = (j, true) /\ a <= j < n /\ hit j = true
                /\ forall i, a <= i < j -> hit i = false).
Proof.
  induction k as [|k IH]; intros a hc Hak; simpl.
  - left. split; [reflexivity|]. intros i Hi. lia.
  - rewrite Nat.eqb_refl.
    change (edgeBody hit a (n, hc)) with (if hit a then (a, true) else (n, hc)).
    destruct (hit a) eqn:Ha.
    + right. exists a. split.
      * apply forWhile_stop. simpl. apply Nat.eqb_neq. lia.
      * repeat split; auto; try lia. all: intros; lia.
    + destruct (IH (S a) hc ltac:(lia)) as [[Hr Hno]|[j [Hr [Hj [Hhit Hno]]]]].
      * left. split; [exact Hr|]. intros i Hi.
        destruct (Nat.eq_dec i a) as [->|Hne]; [exact Ha|]. apply Hno. lia.
      * right. exists j. split; [exact Hr|]. repeat split; try lia; auto.
        intros i Hi.
        destruct (Nat.eq_dec i a) as [->|Hne]; [exact Ha|]. apply Hno. lia.
Qed.

(** The forward loop leaves the sentinel [n] when nothing is hit, and the
    first hit otherwise. *)
Lemma scanForward_spec (n : nat) (hc : bool) :
  (scanForward hit n hc = (n, hc) /\ forall i, i < n -> hit i = false)
  \/ (exists j, scanForward hit n hc = (j, true) /\ j < n /\ hit j = true
                /\ forall i, i < j -> hit i = false).
Proof.
  unfold scanForward.
  destruct (@forward_from n n 0 hc eq_refl) as [[Hr Hno]|[j [Hr [Hj [Hhit Hno]]]]].
  - left. split; [exact Hr|]. intros i Hi. apply Hno. lia.
  - right. exists j. repeat split; auto; try lia. intros i Hi. apply Hno. lia.
Qed.

Lemma countdown_settled (m : nat) :
  forWhile (fun s : nat * bool => fst s =? 0) (edgeBody hit) (countdown m) (m, true)
  = (m, true).
Proof. destruct m; simpl; reflexivity. Qed.

Lemma backward_from (n : nat) : forall m hc,
  m <= n -> (forall i, m <= i < n -> hit i = false) ->
  let r := forWhile (fun s => fst s =? 0) (edgeBody hit) (countdown m) (0, hc) in
  (r = (0, hc) /\ forall i, i < n -> hit i = false)
  \/ (exists j, r = (j, true) /\ j < n /\ hit j = true
                /\ forall i, j < i < n -> hit i = false).
Proof.
  induction m as [|m IH]; intros hc Hm Habove; simpl.
  - left. split; [reflexivity|]. intros i Hi. apply Habove. lia.
  - change (edgeBody hit m (0, hc)) with (if hit m then (m, true) else (0, hc)).
    destruct (hit m) eqn:Hhit.
    + right. exists m. split; [apply countdown_settled|].
      repeat split; auto; try lia. all: intros i Hi; apply Habove; lia.
    + apply IH; [lia|]. intros i Hi.
      destruct (Nat.eq_dec i m) as [->|Hne]; [exact Hhit|]. apply Habove. lia.
Qed.

(** The backward loop leaves [0] when nothing is hit, and the last hit
    otherwise. *)
Lemma scanBackward_spec (n : nat) (hc : bool) :
  (scanBackward hit n hc = (0, hc) /\ forall i, i < n -> hit i = false)
  \/ (exists j, scanBackward hit n hc = (j, true) /\ j < n /\ hit j = true
                /\ forall i, j < i < n -> hit i = false).
Proof.
  unfold scanBackward. apply (@backward_from n n hc); [lia|]. intros i Hi. lia.
Qed.

End EdgeLoops.

(** ** The scanner *)

Section Scanner.

Variable img : Raster.t.
Variable t : Z.

Let w := Raster.width img.
Let h := Raster.height img.

Lemma hitRow_true (y : nat) :
  hitRow img t y = true <-> exists x, x < w /\ isContent img t x y = true.
Proof.
  unfold hitRow. rewrite existsb_exists. split.
  - intros [x [Hin Hx]]. apply in_seq in Hin. exists x. split; [unfold w; lia|exact Hx].
  - intros [x [Hlt Hx]]. exists x. split; [apply in_seq; unfold w in Hlt; lia|exact Hx].
Qed.

Lemma hitCol_true (lo hi x : nat) :
  hitCol img t lo hi x = true
  <-> exists y, lo <= y <= hi /\ isContent img t x y = true.
Proof.
  unfold hitCol. rewrite existsb_exists. split.
  - intros [y [Hin Hy]]. apply in_seq in Hin. exists y. split; [lia|exact Hy].
  - intros [y [Hr Hy]]. exists y. split; [apply in_seq; lia|exact Hy].
Qed.

Lemma hitRow_false {y x : nat} :
  hitRow img t y = false -> x < w -> isContent img t x y = false.
Proof.
  intros Hf Hx. destruct (isContent img t x y) eqn:E; [|reflexivity].
  assert (Ht : hitRow img t y = true) by (apply hitRow_true; eauto).
  congruence.
Qed.

Lemma hitCol_false {lo hi x y : nat} :
  hitCol img t lo hi x = false -> lo <= y <= hi -> isContent img t x y = false.
Proof.
  intros Hf Hy. destruct (isContent img t x y) eqn:E; [|reflexivity].
  assert (Ht : hitCol img t lo hi x = true) by (apply hitCol_true; eauto).
  congruence.
Qed.

(** With content in the frame, the four loops leave the tightest box
    around it and raise the flag. *)
Lemma scanEdges_content :
  anyContent img t ->
  hasContent (scanEdges img t) = true
  /\ boxCovers img t (scanEdges img t)
  /\ boxTouches img t (scanEdges img t).
Proof.
  intros [x0 [y0 [Hx0 [Hy0 Hc0]]]]. unfold scanEdges. fold w h.
  destruct (scanForward_spec (hitRow img t) h false)
    as [[_ N1]|[j1 [E1 [B1 [H1 N1]]]]].
  { rewrite (hitRow_false (N1 y0 Hy0) Hx0) in Hc0. discriminate. }
  rewrite E1.
  destruct (scanBackward_spec (hitRow img t) h true)
    as [[_ N2]|[j2 [E2 [B2 [H2 N2]]]]].
  { rewrite (hitRow_false (N2 y0 Hy0) Hx0) in Hc0. discriminate. }
  rewrite E2.
  assert (Hj : j1 <= j2).
  { destruct (le_lt_dec j1 j2) as [|Hgt]; [assumption|].
    rewrite (N2 j1 (conj Hgt B1)) in H1. discriminate. }
  apply hitRow_true in H1. destruct H1 as [x1 [Hx1 Hc1]].
  apply hitRow_true in H2. destruct H2 as [x2 [Hx2 Hc2]].
  destruct (scanForward_spec (hitCol img t j1 j2) w true)
    as [[_ N3]|[j3 [E3 [B3 [H3 N3]]]]].
  { rewrite (hitCol_false (y := j1) (N3 x1 Hx1)) in Hc1 by lia. discriminate. }
  rewrite E3.
  destruct (scanBackward_spec (hitCol img t j1 j2) w true)
    as [[_ N4]|[j4 [E4 [B4 [H4 N4]]]]].
  { rewrite (hitCol_false (y := j1) (N4 x1 Hx1)) in Hc1 by lia. discriminate. }
  rewrite E4.
  apply hitCol_true in H3. destruct H3 as [y3 [Hy3 Hc3]].
  apply hitCol_true in H4. destruct H4 as [y4 [Hy4 Hc4]].
  split; [reflexivity|]. split.
  - intros x y Hx Hy Hc. simpl.
    assert (Hrow : j1 <= y <= j2).
    { split.
      - destruct (le_lt_dec j1 y) as [|Hlt]; [assumption|].
        rewrite (hitRow_false (N1 y Hlt) Hx) in Hc. discriminate.
      - destruct (le_lt_dec y j2) as [|Hgt]; [assumption|].
        rewrite (hitRow_false (N2 y (conj Hgt Hy)) Hx) in Hc. discriminate. }
    split; [|exact Hrow]. split.
    + destruct (le_lt_dec j3 x) as [|Hlt]; [assumption|].
      rewrite (hitCol_false (N3 x Hlt) Hrow) in Hc. discriminate.
    + destruct (le_lt_dec x j4) as [|Hgt]; [assumption|].
      rewrite (hitCol_false (N4 x (conj Hgt Hx)) Hrow) in Hc. discriminate.
  - unfold boxTouches. simpl. fold w h. repeat split; try assumption.
    + exists x1. auto.
    + exists x2. auto.
    + exists y3. split; [lia|exact Hc3].
    + exists y4. split; [lia|exact Hc4].
Qed.

(** Without content, no loop assigns: the initial values come back. *)
Lemma scanEdges_empty :
  0 < h -> noContent img t ->
  scanEdges img t =
    {| minX := w; minY := h; maxX := 0; maxY := 0; hasContent := false |}.
Proof.
  intros Hh Hno. unfold scanEdges. fold w h.
  assert (Hrow : forall y, y < h -> hitRow img t y = false).
  { intros y Hy. destruct (hitRow img t y) eqn:E; [|reflexivity].
    apply hitRow_true in E. destruct E as [x [Hx Hc]].
    rewrite (Hno x y Hx Hy) in Hc. discriminate. }
  assert (Hcol : forall x, hitCol img t h 0 x = false).
  { intros x. destruct (hitCol img t h 0 x) eqn:E; [|reflexivity].
    apply hitCol_true in E. destruct E as [y [Hy _]]. lia. }
  destruct (scanForward_spec (hitRow img t) h false)
    as [[E1 _]|[j1 [_ [B1 [H1 _]]]]]; [|rewrite Hrow in H1; [discriminate|lia]].
  rewrite E1.
  destruct (scanBackward_spec (hitRow img t) h false)
    as [[E2 _]|[j2 [_ [B2 [H2 _]]]]]; [|rewrite Hrow in H2; [discriminate|lia]].
  rewrite E2.
  destruct (scanForward_spec (hitCol img t h 0) w false)
    as [[E3 _]|[j3 [_ [_ [H3 _]]]]]; [|rewrite Hcol in H3; discriminate].
  rewrite E3.
  destruct (scanBackward_spec (hitCol img t h 0) w false)
    as [[E4 _]|[j4 [_ [_ [H4 _]]]]]; [|rewrite Hcol in H4; discriminate].
  rewrite E4. reflexivity.
Qed.

(** Either some pixel of the frame is content or none is. *)
Lemma content_dec : anyContent img t \/ noContent img t.
Proof.
  destruct (existsb (hitRow img t) (seq 0 h)) eqn:E.
  - left. apply existsb_exists in E. destruct E as [y [Hin Hy]].
    apply in_seq in Hin. apply hitRow_true in Hy. destruct Hy as [x [Hx Hc]].
    exists x, y. repeat split; auto. unfold h in Hin. lia.
  - right. intros x y Hx Hy.
    apply hitRow_false; [|exact Hx].
    destruct (hitRow img t y) eqn:Hr; [|reflexivity].
    assert (existsb (hitRow img t) (seq 0 h) = true).
    { apply existsb_exists. exists y. split; [apply in_seq; unfold h; lia|exact Hr]. }
    congruence.
Qed.

End Scanner.

(** ** Buffers as rows *)

Section Rows.

Variable stride : nat.

Lemma length_rowsOf (n : nat) : forall bytes, length (rowsOf stride n bytes) = n.
Proof. induction n as [|n IH]; intros bytes; simpl; [reflexivity|]. now rewrite IH. Qed.

Lemma rowsOf_uniform (n : nat) : forall bytes,
  length bytes = n * stride -> uniform stride (rowsOf stride n bytes).
Proof.
  induction n as [|n IH]; intros bytes Hlen; simpl; constructor.
  - rewrite length_firstn. simpl in Hlen. lia.
  - apply IH. rewrite length_skipn. simpl in Hlen. lia.
Qed.

Lemma concat_rowsOf (n : nat) : forall bytes,
  length bytes = n * stride -> concat (rowsOf stride n bytes) = bytes.
Proof.
  induction n as [|n IH]; intros bytes Hlen; simpl.
  - symmetry. apply length_zero_iff_nil. exact Hlen.
  - rewrite IH; [apply firstn_skipn|].
    rewrite length_skipn. simpl in Hlen. lia.
Qed.

Lemma rowsOf_concat (rs : list (list Z)) :
  uniform stride rs -> rowsOf stride (length rs) (concat rs) = rs.
Proof.
  induction 1 as [|r rs Hr Hrs IH]; simpl; [reflexivity|].
  rewrite firstn_app, skipn_app, Hr, Nat.sub_diag. simpl.
  rewrite <- Hr at 1 3. rewrite firstn_all, skipn_all, app_nil_r. simpl.
  now rewrite IH.
Qed.

Lemma length_concat_uniform (rs : list (list Z)) :
  uniform stride rs -> length (concat rs) = length rs * stride.
Proof.
  induction 1 as [|r rs Hr Hrs IH]; simpl; [reflexivity|].
  rewrite length_app, IH, Hr. reflexivity.
Qed.

Lemma uniform_rev (rs : list (list Z)) : uniform stride rs -> uniform stride (rev rs).
Proof. apply Forall_rev. Qed.

(** Byte [j] of row [y] sits at offset [y * stride + j] of the buffer. *)
Lemma nth_error_concat_rows (rs : list (list Z)) : forall y j,
  uniform stride rs -> j < stride ->
  nth_error (concat rs) (y * stride + j) = nth_error (nth y rs []) j.
Proof.
  induction rs as [|r rs IH]; intros y j Hu Hj.
  - simpl. destruct y; now rewrite !nth_error_nil.
  - apply Forall_cons_iff in Hu. destruct Hu as [Hr Hrs]. simpl.
    destruct y as [|y].
    + simpl. apply nth_error_app1. lia.
    + rewrite nth_error_app2 by (simpl; lia).
      replace (S y * stride + j - length r) with (y * stride + j)
        by (simpl; lia).
      now apply IH.
Qed.

End Rows.

(** ** The mirror *)

Section Mirror.

Variable img : Raster.t.
Hypothesis Hwf : Raster.wf img.

Let w := Raster.width img.
Let h := Raster.height img.
Let c := Raster.channels img.

Lemma rows_uniform : uniform (w * c) (rows img).
Proof. apply rowsOf_uniform. exact Hwf. Qed.

Lemma length_rows : length (rows img) = h.
Proof. apply length_rowsOf. Qed.

Lemma concat_rows : concat (rows img) = Raster.data img.
Proof. apply concat_rowsOf. exact Hwf. Qed.

Lemma flip_wf : Raster.wf (flip img).
Proof.
  unfold Raster.wf, flip. simpl.
  rewrite (length_concat_uniform (uniform_rev rows_uniform)).
  now rewrite length_rev, length_rows.
Qed.

(** The rows of the mirror are the rows of the image, last first. *)
Lemma rows_flip : rows (flip img) = rev (rows img).
Proof.
  unfold rows at 1. unfold flip. simpl. fold w h c.
  replace h with (length (rev (rows img)))
    by (now rewrite length_rev, length_rows).
  apply rowsOf_concat, uniform_rev, rows_uniform.
Qed.

(** Byte [j] of row [y] of the mirror is byte [j] of row [h-1-y]. *)
Lemma flip_byte (y j : nat) :
  y < h -> j < w * c ->
  nth_error (Raster.data (flip img)) (y * (w * c) + j)
  = nth_error (Raster.data img) ((h - 1 - y) * (w * c) + j).
Proof.
  intros Hy Hj. unfold flip. simpl.
  rewrite (nth_error_concat_rows y (uniform_rev rows_uniform) Hj).
  rewrite rev_nth by (rewrite length_rows; exact Hy).
  rewrite length_rows.
  replace (h - S y) with (h - 1 - y) by lia.
  rewrite <- (nth_error_concat_rows (h - 1 - y) rows_uniform Hj).
  now rewrite concat_rows.
Qed.

Lemma alphaAt_flip (x y : nat) :
  x < w -> y < h -> alphaAt (flip img) x y = alphaAt img x (h - 1 - y).
Proof.
  intros Hx Hy. unfold alphaAt. simpl. fold w h c.
  destruct (c =? 4) eqn:Ec; [|reflexivity].
  apply Nat.eqb_eq in Ec.
  replace ((y * w + x) * c + 3) with (y * (w * c) + (x * c + 3)) by lia.
  replace (((h - 1 - y) * w + x) * c + 3)
    with ((h - 1 - y) * (w * c) + (x * c + 3)) by lia.
  apply flip_byte; [exact Hy|]. rewrite Ec. lia.
Qed.

Lemma isContent_flip (t : Z) (x y : nat) :
  x < w -> y < h -> isContent (flip img) t x y = isContent img t x (h - 1 - y).
Proof. intros Hx Hy. unfold isContent. now rewrite alphaAt_flip. Qed.

Lemma flip_flip : flip (flip img) = img.
Proof.
  assert (Hd : Raster.data (flip (flip img)) = Raster.data img).
  { change (Raster.data (flip (flip img))) with (concat (rev (rows (flip img)))).
    now rewrite rows_flip, rev_involutive, concat_rows. }
  destruct img as [w0 h0 c0 d0]. unfold flip in *. simpl in *.
  now rewrite Hd.
Qed.

End Mirror.

(** ** Stacking arithmetic *)

Lemma floor_half (n : Z) : Math_floor (inject_Z n * (1 # 2)) = (n / 2)%Z.
Proof. unfold Math_floor, Qfloor, inject_Z, Qmult. simpl. now rewrite Z.mul_1_r. Qed.

Lemma floor_halve (n : Z) : Math_floor (inject_Z n / inject_Z 2) = (n / 2)%Z.
Proof.
  unfold Math_floor, Qfloor, inject_Z, Qdiv, Qmult, Qinv. simpl.
  now rewrite Z.mul_1_r.
Qed.

(** The content rows that meet at the seam are [gap] apart. *)
Lemma seam_rows (backBounds frontBounds : Bounds.t) (gap : Z) :
  let lay := stackLayout backBounds frontBounds gap in
  frontTopRow frontBounds lay = (backBottomRow backBounds lay + gap)%Z.
Proof. unfold frontTopRow, backBottomRow, stackLayout. simpl. lia. Qed.

Lemma back_content_at_row_zero (backBounds frontBounds : Bounds.t) (gap : Z) :
  backTopRow backBounds (stackLayout backBounds frontBounds gap) = 0%Z.
Proof. unfold backTopRow, stackLayout. simpl. lia. Qed.

(** ** The collar step *)

Lemma prepareCollar_cases (collarPath : option (FileState Meta)) (width : Z) :
  (collarPath = Some Corrupt
   /\ prepareCollar collarPath width = Throw UnsupportedImageFormat)
  \/ (exists collarMeta, collarPath = Some (Readable collarMeta)
        /\ prepareCollar collarPath width = Ok (loadCollar collarMeta width))
  \/ ((collarPath = None \/ collarPath = Some Missing)
      /\ prepareCollar collarPath width = Ok noCollar).
Proof.
  destruct collarPath as [[| |collarMeta]|]; simpl.
  - right. right. auto.
  - left. auto.
  - right. left. exists collarMeta. auto.
  - right. right. auto.
Qed.

Section PipelineFacts.

Variable sharp_trim : Raster.t -> Raster.t.

(** Once the input decodes and the collar step returns, the pipeline
    returns the composite of steps 5 and 6. *)
Lemma processJerseyImage_ok (img : Raster.t)
    (collarPath : option (FileState Meta)) (gap : Z) (collar : Collar) :
  let trimmed := trimStage sharp_trim img in
  prepareCollar collarPath (Z.of_nat (Raster.width trimmed)) = Ok collar ->
  processJerseyImage sharp_trim (Readable img) collarPath gap
  = Ok (stackAndCompose (flip trimmed) trimmed
          (getContentBounds (flip trimmed)) (getContentBounds trimmed)
          collar gap (Z.of_nat (Raster.width trimmed))).
Proof.
  intros trimmed Hc. unfold processJerseyImage, buildTemplate. simpl.
  fold trimmed. now rewrite Hc.
Qed.

(** A collar file that exists but does not decode aborts the server's
    pipeline. *)
Lemma processJerseyImage_corrupt_collar (img : Raster.t) (gap : Z) :
  processJerseyImage sharp_trim (Readable img) (Some Corrupt) gap
  = Throw (ImageProcessingFailed UnsupportedImageFormat).
Proof. reflexivity. Qed.

(** A collar path that does not exist is the same as no collar path, and
    the composite then has the two jersey layers only. *)
Lemma processJerseyImage_missing_collar (img : Raster.t) (gap : Z) :
  processJerseyImage sharp_trim (Readable img) (Some Missing) gap
  = processJerseyImage sharp_trim (Readable img) None gap
  /\ exists out back front,
       processJerseyImage sharp_trim (Readable img) None gap = Ok out
       /\ compositeLayers out = [back; front].
Proof.
  split; [reflexivity|].
  rewrite (@processJerseyImage_ok img None gap noCollar eq_refl).
  do 3 eexists. split; reflexivity.
Qed.

(** The standalone script swallows every collar failure. *)
Lemma createTightJerseyTemplate_collar_unavailable (img : Raster.t) :
  createTightJerseyTemplate sharp_trim (Readable img) Corrupt
  = createTightJerseyTemplate sharp_trim (Readable img) Missing
  /\ exists out back front,
       createTightJerseyTemplate sharp_trim (Readable img) Corrupt = Ok out
       /\ compositeLayers out = [back; front].
Proof.
  split; [reflexivity|]. do 3 eexists. split; reflexivity.
Qed.

End PipelineFacts.

(** ** Worked examples *)

(** Two sides with 150 content rows each, stacked with the default gap. *)
Example stackLayout_default_gap :
  let side := boundsOfScan {| minX := 0; minY := 0; maxX := 99; maxY := 149;
                              hasContent := true |} in
  stackLayout side side defaultGap
  = {| backTop := 0; backBottomContentY := 149; frontTop := 131;
       frontBottomContentY := 280; totalHeight := 281 |}.
Proof. reflexivity. Qed.

(** ** Claims *)

(** C1 (seam rows).  The claim asks for the front's top content row to be the
    back's bottom content row + 1 at gap 0 and - 17 at gap -18.  The stacking
    arithmetic puts it at the back's bottom content row + gap for every pair
    of bounds; on the 1x2 opaque image the server's composite has the front
    layer's top content row on the very row of the back layer's bottom
    content row at gap 0, and 18 rows above it at gap -18. *)
Theorem C1_seam_rows_differ_by_gap :
  (forall backBounds frontBounds gap,
     let lay := stackLayout backBounds frontBounds gap in
     frontTopRow frontBounds lay = (backBottomRow backBounds lay + gap)%Z)
  /\ (let frontBounds := getContentBounds (trimStage trimNothing twoRows) in
      let backBounds := getContentBounds (flip (trimStage trimNothing twoRows)) in
      (exists out back front,
         processJerseyImage trimNothing (Readable twoRows) None 0 = Ok out
         /\ compositeLayers out = [back; front]
         /\ (Layer.top front + Bounds.top frontBounds
             = Layer.top back + Bounds.bottom backBounds)%Z
         /\ (Layer.top front + Bounds.top frontBounds
             <> Layer.top back + Bounds.bottom backBounds + 1)%Z)
      /\ (exists out back front,
            processJerseyImage trimNothing (Readable twoRows) None (-18) = Ok out
            /\ compositeLayers out = [back; front]
            /\ (Layer.top front + Bounds.top frontBounds
                = Layer.top back + Bounds.bottom backBounds - 18)%Z
            /\ (Layer.top front + Bounds.top frontBounds
                <> Layer.top back + Bounds.bottom backBounds - 17)%Z)).
Proof.
  split; [intros; apply seam_rows|].
  split.
  - do 3 eexists. split; [vm_compute; reflexivity|].
    split; [reflexivity|]. vm_compute. split; [reflexivity|discriminate].
  - do 3 eexists. split; [vm_compute; reflexivity|].
    split; [reflexivity|]. vm_compute. split; [reflexivity|discriminate].
Qed.

(** C2 (canvas size).  Every composite the server's pipeline returns is
    created as wide as the trimmed image, which the front and back layers
    share, and as high as [frontTop + frontBounds.bottom + 1]. *)
Theorem C2_canvas_size (sharp_trim : Raster.t -> Raster.t)
    (inputPath : FileState Raster.t) (collarPath : option (FileState Meta))
    (gap : Z) (out : Composite) :
  processJerseyImage sharp_trim inputPath collarPath gap = Ok out ->
  exists img back front rest,
    let trimmed := trimStage sharp_trim img in
    let backBounds := getContentBounds (flip trimmed) in
    let frontBounds := getContentBounds trimmed in
    inputPath = Readable img
    /\ compositeLayers out = back :: front :: rest
    /\ Layer.input back = Jersey (flip trimmed)
    /\ Layer.input front = Jersey trimmed
    /\ Raster.width (flip trimmed) = Raster.width trimmed
    /\ Layer.top front = frontTop (stackLayout backBounds frontBounds gap)
    /\ createWidth out = Z.of_nat (Raster.width trimmed)
    /\ createHeight out
       = (Layer.top front + Bounds.bottom frontBounds + 1)%Z.
Proof.
  intros Hout.
  destruct inputPath as [| |img]; [discriminate Hout|discriminate Hout|].
  destruct (prepareCollar_cases collarPath
              (Z.of_nat (Raster.width (trimStage sharp_trim img))))
    as [[-> _]|[[collarMeta [-> Hc]]|[_ Hc]]].
  - rewrite processJerseyImage_corrupt_collar in Hout. discriminate Hout.
  - rewrite (processJerseyImage_ok _ _ _ _ Hc) in Hout.
    injection Hout as <-.
    exists img. do 3 eexists. cbv zeta.
    repeat (split; [reflexivity|]). reflexivity.
  - rewrite (processJerseyImage_ok _ _ _ _ Hc) in Hout.
    injection Hout as <-.
    exists img. do 3 eexists. cbv zeta.
    repeat (split; [reflexivity|]). reflexivity.
Qed.

Lemma C2_canvas_size_witness :
  exists out,
    processJerseyImage trimNothing (Readable tallJersey) None (-18) = Ok out
    /\ createWidth out = 3%Z /\ createHeight out = 21%Z.
Proof.
  destruct (processJerseyImage trimNothing (Readable tallJersey) None (-18))
    as [out|e] eqn:Hout; [|vm_compute in Hout; discriminate Hout].
  exists out. split; [reflexivity|].
  destruct (@C2_canvas_size trimNothing (Readable tallJersey) None (-18) out Hout)
    as [img [back [front [rest [Hin [_ [_ [_ [_ [Htop [Hw Hh]]]]]]]]]]].
  injection Hin as <-.
  rewrite Hw, Hh, Htop. split; vm_compute; reflexivity.
Defined.

(** A fully opaque rectangle on a transparent frame is the content, for every
    threshold from 0 to 254. *)
Lemma isContent_rectangle (img : Raster.t) (t : Z) (top bottom left right x y : nat) :
  (0 <= t < 255)%Z -> opaqueRectangle img top bottom left right ->
  x < Raster.width img -> y < Raster.height img ->
  isContent img t x y
  = (left <=? x) && (x <=? right) && (top <=? y) && (y <=? bottom).
Proof.
  intros Ht [_ [_ Hpix]] Hx Hy. unfold isContent. rewrite (Hpix x y Hx Hy).
  destruct ((left <=? x) && (x <=? right) && (top <=? y) && (y <=? bottom));
    simpl; [apply Z.ltb_lt|apply Z.ltb_ge]; lia.
Qed.

Lemma rectangle_bounds (img : Raster.t) (t : Z) (top bottom left right : nat) :
  (0 <= t < 255)%Z -> opaqueRectangle img top bottom left right ->
  getContentBoundsAt t img
  = {| Bounds.top := Z.of_nat top; Bounds.bottom := Z.of_nat bottom;
       Bounds.left := Z.of_nat left; Bounds.right := Z.of_nat right;
       Bounds.height := Z.of_nat bottom - Z.of_nat top + 1;
       Bounds.width := Z.of_nat right - Z.of_nat left + 1 |}.
Proof.
  intros Ht Hrect.
  pose proof Hrect as [[Htb Hb] [[Hlr Hr] _]].
  assert (Hin : forall x y, x < Raster.width img -> y < Raster.height img ->
            isContent img t x y = true ->
            left <= x <= right /\ top <= y <= bottom).
  { intros x y Hx Hy Hc.
    rewrite (isContent_rectangle Ht Hrect Hx Hy) in Hc.
    repeat (apply andb_prop in Hc; destruct Hc as [Hc ?]).
    repeat match goal with H : (_ <=? _) = true |- _ => apply Nat.leb_le in H end.
    lia. }
  assert (Hcorner : forall x y, left <= x <= right -> top <= y <= bottom ->
            isContent img t x y = true).
  { intros x y Hx Hy.
    rewrite (isContent_rectangle Ht Hrect) by lia.
    repeat (apply andb_true_intro; split); apply Nat.leb_le; lia. }
  destruct (@scanEdges_content img t) as [_ [Hcov Htouch]].
  { exists left, top. repeat split; try lia. apply Hcorner; lia. }
  destruct Htouch as [[B1 [x1 [Hx1 C1]]] [[B2 [x2 [Hx2 C2]]]
                     [[B3 [y3 [Hy3 C3]]] [B4 [y4 [Hy4 C4]]]]]].
  apply Hin in C1; try assumption. apply Hin in C2; try assumption.
  apply Hin in C3; try assumption. apply Hin in C4; try assumption.
  destruct (Hcov left top) as [Ha Hb']; try lia. { apply Hcorner; lia. }
  destruct (Hcov right bottom) as [Hc Hd]; try lia. { apply Hcorner; lia. }
  unfold getContentBoundsAt, boundsOfScan.
  replace (minY (scanEdges img t)) with top by lia.
  replace (maxY (scanEdges img t)) with bottom by lia.
  replace (minX (scanEdges img t)) with left by lia.
  replace (maxX (scanEdges img t)) with right by lia.
  reflexivity.
Qed.

(** C3 (opaque rectangle).  When the alpha channel is 255 on the rectangle
    [left..right] x [top..bottom] of the frame and 0 elsewhere,
    [getContentBounds] returns exactly these four inclusive coordinates (with
    the derived height and width), and so does the scanner for every
    threshold from 0 to 254. *)
Theorem C3_rectangle_bounds (img : Raster.t) (top bottom left right : nat) :
  opaqueRectangle img top bottom left right ->
  let box :=
    {| Bounds.top := Z.of_nat top; Bounds.bottom := Z.of_nat bottom;
       Bounds.left := Z.of_nat left; Bounds.right := Z.of_nat right;
       Bounds.height := Z.of_nat bottom - Z.of_nat top + 1;
       Bounds.width := Z.of_nat right - Z.of_nat left + 1 |} in
  getContentBounds img = box
  /\ forall t, (0 <= t < 255)%Z -> getContentBoundsAt t img = box.
Proof.
  intros Hrect box. split.
  - apply rectangle_bounds; [lia|exact Hrect].
  - intros t Ht. apply rectangle_bounds; assumption.
Qed.

Lemma C3_rectangle_bounds_witness :
  opaqueRectangle framedBlock 1 2 1 2
  /\ getContentBounds framedBlock
     = {| Bounds.top := 1; Bounds.bottom := 2; Bounds.left := 1;
          Bounds.right := 2; Bounds.height := 2; Bounds.width := 2 |}.
Proof.
  assert (Hrect : opaqueRectangle framedBlock 1 2 1 2).
  { unfold opaqueRectangle. simpl. repeat split; try lia.
    intros x y Hx Hy.
    destruct x as [|[|[|x]]]; try lia;
      destruct y as [|[|[|[|y]]]]; try lia; reflexivity. }
  split; [exact Hrect|].
  exact (proj1 (@C3_rectangle_bounds framedBlock 1 2 1 2 Hrect)).
Defined.

(** With content, the scanned box is valid and inside the frame. *)
Lemma content_bounds_valid (img : Raster.t) (t : Z) :
  anyContent img t ->
  let b := getContentBoundsAt t img in
  validBounds b
  /\ (Bounds.bottom b < Z.of_nat (Raster.height img))%Z
  /\ (Bounds.right b < Z.of_nat (Raster.width img))%Z.
Proof.
  intros Hany. destruct (scanEdges_content Hany) as [_ [Hcov Htouch]].
  destruct Htouch as [[B1 [x1 [Hx1 C1]]] [[B2 _] [[B3 [y3 [Hy3 C3]]] [B4 _]]]].
  destruct (Hcov _ _ Hx1 B1 C1) as [_ Hrow].
  destruct (Hcov _ _ B3 Hy3 C3) as [Hcol _].
  unfold validBounds, getContentBoundsAt, boundsOfScan. simpl. lia.
Qed.

(** Without content, the initial values come back, and they are not valid
    bounds. *)
Lemma blank_bounds_untouched (img : Raster.t) (t : Z) :
  0 < Raster.height img -> noContent img t ->
  getContentBoundsAt t img = untouchedBounds img
  /\ ~ validBounds (untouchedBounds img).
Proof.
  intros Hh Hno. split.
  - unfold getContentBoundsAt, untouchedBounds. now rewrite scanEdges_empty.
  - unfold validBounds, untouchedBounds, boundsOfScan. simpl. lia.
Qed.

(** C5 (bounds invariant), as amended.  On a non-empty frame the scanner's
    result is either a valid box inside the frame (content exists) or, when
    no pixel is above the threshold, the untouched initial values
    [top = height, bottom = 0, left = width, right = 0].  That value violates
    [top <= bottom], so no valid bounds equals it; it is however the very box
    [top = height, bottom = 0], not a separate sentinel. *)
Theorem C5_bounds_valid_or_untouched (img : Raster.t) (t : Z) :
  0 < Raster.width img -> 0 < Raster.height img ->
  let b := getContentBoundsAt t img in
  (anyContent img t /\ validBounds b
   /\ (Bounds.bottom b < Z.of_nat (Raster.height img))%Z
   /\ (Bounds.right b < Z.of_nat (Raster.width img))%Z)
  \/ (noContent img t /\ b = untouchedBounds img /\ ~ validBounds b
      /\ Bounds.top b = Z.of_nat (Raster.height img) /\ Bounds.bottom b = 0%Z
      /\ Bounds.left b = Z.of_nat (Raster.width img) /\ Bounds.right b = 0%Z).
Proof.
  intros Hw Hh b. destruct (content_dec img t) as [Hany|Hno].
  - left. split; [exact Hany|]. apply content_bounds_valid. exact Hany.
  - right. destruct (blank_bounds_untouched Hh Hno) as [Hb Hinv].
    split; [exact Hno|]. subst b. rewrite Hb.
    split; [reflexivity|]. split; [exact Hinv|]. repeat split.
Qed.

Lemma C5_bounds_valid_or_untouched_witness :
  0 < Raster.width blankImage /\ 0 < Raster.height blankImage
  /\ getContentBounds blankImage = untouchedBounds blankImage
  /\ validBounds (getContentBounds framedBlock).
Proof.
  split; [simpl; lia|]. split; [simpl; lia|]. split.
  - destruct (@C5_bounds_valid_or_untouched blankImage 1) as [[_ [Hv _]]|[_ [Hb _]]];
      [simpl; lia|simpl; lia| |exact Hb].
    vm_compute in Hv. destruct Hv as [Hv _]. exfalso. apply Hv. reflexivity.
  - destruct (@C5_bounds_valid_or_untouched framedBlock 1) as [[_ [Hv _]]|[_ [_ [Hn _]]]];
      [simpl; lia|simpl; lia|exact Hv|].
    exfalso. apply Hn. vm_compute. split; discriminate.
Defined.

(** C5 as stated fails on the 1x1 transparent image: the result is not valid
    bounds, and it is the box [top = height, bottom = 0]. *)
Lemma C5_counterexample : ~ sentinelNotConflated blankImage.
Proof.
  unfold sentinelNotConflated. vm_compute. intros [[Htop _]|Hne].
  - apply Htop. reflexivity.
  - apply Hne. split; reflexivity.
Qed.

(** C4 (collar unavailable).  The claim wants a missing or unreadable collar
    skipped in silence.  A missing one is; but in the server's
    [processJerseyImage] a collar file that exists and does not decode
    raises inside the function's only [try], and the caller gets
    "Image processing failed".  The standalone script wraps the same block
    in its own [try]/[catch] and composes the two jersey layers as if the
    file were missing. *)
Theorem C4_unreadable_collar_aborts_server (sharp_trim : Raster.t -> Raster.t)
    (img : Raster.t) (gap : Z) :
  processJerseyImage sharp_trim (Readable img) (Some Corrupt) gap
  = Throw (ImageProcessingFailed UnsupportedImageFormat)
  /\ processJerseyImage sharp_trim (Readable img) (Some Corrupt) gap
     <> processJerseyImage sharp_trim (Readable img) None gap
  /\ processJerseyImage sharp_trim (Readable img) (Some Missing) gap
     = processJerseyImage sharp_trim (Readable img) None gap
  /\ (exists out back front,
        createTightJerseyTemplate sharp_trim (Readable img) Corrupt = Ok out
        /\ createTightJerseyTemplate sharp_trim (Readable img) Missing = Ok out
        /\ compositeLayers out = [back; front]).
Proof.
  split; [reflexivity|]. split; [|split; [reflexivity|]].
  - rewrite processJerseyImage_corrupt_collar.
    rewrite (@processJerseyImage_ok sharp_trim img None gap noCollar eq_refl).
    discriminate.
  - do 3 eexists. repeat split; reflexivity.
Qed.

(** C9 (collar geometry).  For a readable collar of W x H, every composite
    the server's pipeline returns has a third layer: the collar resized to
    [floor(W * 0.5)] x [floor(H * 0.5)], placed at
    [left = floor((width - collarWidth) / 2)] and
    [top = floor((totalHeight - collarHeight) / 2)], where [width] and
    [totalHeight] are the dimensions of the canvas the composite is created
    with, so that the vertical offset is taken from the final height. *)
Theorem C9_collar_geometry (sharp_trim : Raster.t -> Raster.t)
    (img : Raster.t) (collarMeta : Meta) (gap : Z) (out : Composite) :
  processJerseyImage sharp_trim (Readable img) (Some (Readable collarMeta)) gap
  = Ok out ->
  exists back front collar buf,
    compositeLayers out = [back; front; collar]
    /\ Layer.input collar = CollarOverlay buf
    /\ resizeWidth buf = Math_floor (inject_Z (metaWidth collarMeta) * (1 # 2))
    /\ resizeHeight buf = Math_floor (inject_Z (metaHeight collarMeta) * (1 # 2))
    /\ resizeWidth buf = (metaWidth collarMeta / 2)%Z
    /\ resizeHeight buf = (metaHeight collarMeta / 2)%Z
    /\ Layer.left collar
       = Math_floor (inject_Z (createWidth out - resizeWidth buf) / inject_Z 2)
    /\ Layer.top collar
       = Math_floor (inject_Z (createHeight out - resizeHeight buf) / inject_Z 2)
    /\ Layer.left collar = ((createWidth out - resizeWidth buf) / 2)%Z
    /\ Layer.top collar = ((createHeight out - resizeHeight buf) / 2)%Z.
Proof.
  intros Hout.
  rewrite (@processJerseyImage_ok sharp_trim img (Some (Readable collarMeta)) gap
             _ eq_refl) in Hout.
  injection Hout as <-.
  do 4 eexists.
  unfold stackAndCompose, loadCollar.
  cbn [collarBuffer collarWidth collarHeight collarLeft compositeLayers
       createWidth createHeight app].
  split; [reflexivity|].
  cbn [Layer.input Layer.top Layer.left].
  split; [reflexivity|].
  cbn [resizeWidth resizeHeight].
  rewrite !floor_half, !floor_halve. repeat split; reflexivity.
Qed.

Lemma C9_collar_geometry_witness :
  exists out back front collar buf,
    processJerseyImage trimNothing (Readable tallJersey)
                       (Some (Readable smallCollar)) (-18) = Ok out
    /\ compositeLayers out = [back; front; collar]
    /\ Layer.input collar = CollarOverlay buf
    /\ resizeWidth buf = 2%Z /\ resizeHeight buf = 2%Z
    /\ Layer.left collar = ((createWidth out - 2) / 2)%Z
    /\ Layer.top collar = ((createHeight out - 2) / 2)%Z.
Proof.
  destruct (processJerseyImage trimNothing (Readable tallJersey)
              (Some (Readable smallCollar)) (-18))
    as [out|e] eqn:Hout; [|vm_compute in Hout; discriminate Hout].
  destruct (@C9_collar_geometry trimNothing tallJersey smallCollar (-18) out Hout)
    as [back [front [collar [buf [Hl [Hi [_ [_ [Hw [Hh [_ [_ [Hleft Htop]]]]]]]]]]]]].
  exists out, back, front, collar, buf.
  split; [reflexivity|]. split; [exact Hl|]. split; [exact Hi|].
  change (metaWidth smallCollar / 2)%Z with 2%Z in Hw.
  change (metaHeight smallCollar / 2)%Z with 2%Z in Hh.
  split; [exact Hw|]. split; [exact Hh|].
  rewrite Hleft, Htop, Hw, Hh. split; reflexivity.
Defined.

(** Content survives the mirror. *)
Lemma anyContent_flip (img : Raster.t) (t : Z) :
  Raster.wf img -> anyContent img t -> anyContent (flip img) t.
Proof.
  intros Hwf [x [y [Hx [Hy Hc]]]].
  exists x, (Raster.height img - 1 - y). simpl.
  split; [exact Hx|]. split; [lia|].
  rewrite (isContent_flip Hwf) by (try assumption; lia).
  replace (Raster.height img - 1 - (Raster.height img - 1 - y)) with y by lia.
  exact Hc.
Qed.

(** With content, the mirror's scan is the reflected scan, row-wise. *)
Lemma scanEdges_flip_rows (img : Raster.t) (t : Z) :
  Raster.wf img -> anyContent img t ->
  minY (scanEdges (flip img) t) = Raster.height img - 1 - maxY (scanEdges img t)
  /\ maxY (scanEdges (flip img) t) = Raster.height img - 1 - minY (scanEdges img t)
  /\ maxY (scanEdges img t) < Raster.height img
  /\ minY (scanEdges img t) <= maxY (scanEdges img t).
Proof.
  intros Hwf Hany.
  destruct (scanEdges_content Hany) as [_ [Hcov Htouch]].
  destruct (scanEdges_content (anyContent_flip Hwf Hany)) as [_ [Hcov' Htouch']].
  destruct Htouch as [[B1 [x1 [Hx1 C1]]] [[B2 [x2 [Hx2 C2]]] _]].
  destruct Htouch' as [[B1' [x1' [Hx1' C1']]] [[B2' [x2' [Hx2' C2']]] _]].
  change (Raster.height (flip img)) with (Raster.height img) in *.
  change (Raster.width (flip img)) with (Raster.width img) in *.
  set (h := Raster.height img) in *.
  (* the mirror's edge pixels, seen in the image *)
  rewrite (isContent_flip Hwf) in C1', C2' by assumption. fold h in C1', C2'.
  destruct (Hcov x1' (h - 1 - minY (scanEdges (flip img) t))) as [_ R1];
    [exact Hx1'|fold h; lia|exact C1'|].
  destruct (Hcov x2' (h - 1 - maxY (scanEdges (flip img) t))) as [_ R2];
    [exact Hx2'|fold h; lia|exact C2'|].
  (* the image's edge pixels, seen in the mirror *)
  assert (M1 : isContent (flip img) t x1 (h - 1 - minY (scanEdges img t)) = true).
  { rewrite (isContent_flip Hwf) by (try assumption; fold h; lia). fold h.
    replace (h - 1 - (h - 1 - minY (scanEdges img t)))
      with (minY (scanEdges img t)) by lia.
    exact C1. }
  assert (M2 : isContent (flip img) t x2 (h - 1 - maxY (scanEdges img t)) = true).
  { rewrite (isContent_flip Hwf) by (try assumption; fold h; lia). fold h.
    replace (h - 1 - (h - 1 - maxY (scanEdges img t)))
      with (maxY (scanEdges img t)) by lia.
    exact C2. }
  destruct (Hcov' x1 (h - 1 - minY (scanEdges img t))) as [_ R3];
    [exact Hx1|change (Raster.height (flip img)) with h; lia|exact M1|].
  destruct (Hcov' x2 (h - 1 - maxY (scanEdges img t))) as [_ R4];
    [exact Hx2|change (Raster.height (flip img)) with h; lia|exact M2|].
  destruct (Hcov _ _ Hx1 B1 C1) as [_ R5].
  lia.
Qed.

(** C10 (mirrored bounds), as amended.  For every well-formed buffer of
    height h with at least one pixel above the threshold, the bounds of its
    vertical flip satisfy [backBounds.top = h - 1 - frontBounds.bottom] and
    [backBounds.bottom = h - 1 - frontBounds.top], and the two content
    heights are equal. *)
Theorem C10_mirrored_bounds (img : Raster.t) (t : Z) :
  Raster.wf img -> anyContent img t ->
  mirroredBounds t img
  /\ Bounds.height (getContentBoundsAt t (flip img))
     = Bounds.height (getContentBoundsAt t img).
Proof.
  intros Hwf Hany.
  destruct (scanEdges_flip_rows Hwf Hany) as [Htop [Hbot [Hlt Hle]]].
  unfold mirroredBounds, getContentBoundsAt, boundsOfScan. simpl.
  rewrite Htop, Hbot. lia.
Qed.

Lemma C10_mirrored_bounds_witness :
  Raster.wf topStripe /\ anyContent topStripe 1
  /\ mirroredBounds 1 topStripe
  /\ Bounds.top (getContentBounds (flip topStripe)) = 2%Z.
Proof.
  assert (Hwf : Raster.wf topStripe) by reflexivity.
  assert (Hany : anyContent topStripe 1).
  { exists 0, 0. simpl. repeat split; lia. }
  split; [exact Hwf|]. split; [exact Hany|].
  split; [exact (proj1 (@C10_mirrored_bounds topStripe 1 Hwf Hany))|].
  reflexivity.
Defined.

(** C10 as stated fails on the 1x1 transparent image, which the trimmer hands
    on as it is: both scans return [top = 1, bottom = 0], whereas the
    reflection of the front bounds would have [top = 0]. *)
Lemma C10_counterexample :
  trimStage trimNothing blankImage = blankImage
  /\ Raster.wf blankImage
  /\ ~ mirroredBounds 1 blankImage.
Proof.
  split; [reflexivity|]. split; [reflexivity|].
  unfold mirroredBounds. vm_compute. intros [H _]. discriminate H.
Qed.

(** On a frame without rows the row loops do not run. *)
Lemma scanEdges_no_rows (img : Raster.t) (t : Z) :
  Raster.height img = 0 ->
  minY (scanEdges img t) = 0 /\ maxY (scanEdges img t) = 0.
Proof.
  intros Hh. unfold scanEdges. rewrite Hh. simpl.
  destruct (scanForward _ _ _) as [a hc].
  destruct (scanBackward _ _ _) as [b hc']. simpl. auto.
Qed.

(** Without content the trimmer's guard is false. *)
Lemma trim_guard_blank (img : Raster.t) :
  noContent img 5 ->
  let s := scanEdges img 5 in
  hasContent s && (minX s <? maxX s) && (minY s <? maxY s) = false.
Proof.
  intros Hno s. destruct (Nat.eq_dec (Raster.height img) 0) as [Hz|Hnz].
  - destruct (scanEdges_no_rows img 5 Hz) as [Ha Hb]. subst s.
    rewrite Ha, Hb. simpl. apply andb_false_r.
  - subst s. rewrite scanEdges_empty by (try assumption; lia). reflexivity.
Qed.

(** C7 (trimmer keeps its input).  When the generic trim changes nothing, the
    trimmer returns its input as it is if no pixel is above the threshold 5
    (the scan then reports no content), if the scanned box is degenerate
    ([minX >= maxX] or [minY >= maxY]), or if the box spans the frame.  What
    it returns is always either the input or a buffer of at least 2 x 2
    pixels, never an empty one. *)
Theorem C7_trimmer_keeps_input (sharp_trim : Raster.t -> Raster.t)
    (img : Raster.t) :
  sharp_trim img = img ->
  let s := scanEdges img 5 in
  let out := trimStage sharp_trim img in
  (noContent img 5 \/ degenerateScan s \/ fillsFrame img s -> out = img)
  /\ (0 < Raster.height img -> noContent img 5 -> hasContent s = false)
  /\ (out = img \/ (2 <= Raster.width out /\ 2 <= Raster.height out)).
Proof.
  intros Hsame s out. subst out. unfold trimStage.
  rewrite Hsame, !Nat.eqb_refl. cbn [andb]. fold s.
  split; [|split].
  - intros [Hno|[Hdeg|Hfill]].
    + pose proof (trim_guard_blank Hno) as E. cbv zeta in E. fold s in E.
      rewrite E. reflexivity.
    + assert (E : (minX s <? maxX s) && (minY s <? maxY s) = false).
      { destruct Hdeg as [Hx|Hy].
        - apply Nat.ltb_ge in Hx. now rewrite Hx.
        - apply Nat.ltb_ge in Hy. rewrite Hy. apply andb_false_r. }
      rewrite <- andb_assoc, E, andb_false_r. reflexivity.
    + destruct Hfill as [Hx [Hy [HX HY]]].
      rewrite Hx, Hy, HX, HY, !Z.ltb_irrefl. simpl.
      destruct (hasContent s && (0 <? maxX s) && (0 <? maxY s)); reflexivity.
  - intros Hh Hno. subst s. now rewrite scanEdges_empty.
  - destruct (hasContent s && (minX s <? maxX s) && (minY s <? maxY s)) eqn:E;
      [|left; reflexivity].
    apply andb_prop in E. destruct E as [E Ey].
    apply andb_prop in E. destruct E as [_ Ex].
    apply Nat.ltb_lt in Ex. apply Nat.ltb_lt in Ey.
    destruct ((0 <? minX s) || (0 <? minY s)
              || (Z.of_nat (maxX s) <? Z.of_nat (Raster.width img) - 1)%Z
              || (Z.of_nat (maxY s) <? Z.of_nat (Raster.height img) - 1)%Z);
      [right; simpl; lia|left; reflexivity].
Qed.

Lemma C7_trimmer_keeps_input_witness :
  trimNothing blankImage = blankImage
  /\ noContent blankImage 5
  /\ trimStage trimNothing blankImage = blankImage
  /\ hasContent (scanEdges blankImage 5) = false.
Proof.
  assert (Hno : noContent blankImage 5).
  { intros x y Hx Hy. simpl in Hx, Hy.
    destruct x; [|lia]. destruct y; [|lia]. reflexivity. }
  destruct (@C7_trimmer_keeps_input trimNothing blankImage eq_refl)
    as [Hkeep [Hflag _]].
  split; [reflexivity|]. split; [exact Hno|]. split.
  - apply Hkeep. left. exact Hno.
  - apply Hflag; [simpl; lia|exact Hno].
Defined.

(** C8 (mirror).  For a well-formed buffer, the vertical flip has the same
    width, height and channel count and is well-formed; its rows are the
    buffer's rows in reverse order; byte k of pixel (x, y) of the flip is
    byte k of pixel (x, h-1-y) of the buffer; and flipping twice gives the
    buffer back. *)
Theorem C8_flip_involution (img : Raster.t) :
  Raster.wf img ->
  let w := Raster.width img in
  let h := Raster.height img in
  let c := Raster.channels img in
  Raster.width (flip img) = w
  /\ Raster.height (flip img) = h
  /\ Raster.channels (flip img) = c
  /\ Raster.wf (flip img)
  /\ rows (flip img) = rev (rows img)
  /\ (forall x y k, x < w -> y < h -> k < c ->
        nth_error (Raster.data (flip img)) ((y * w + x) * c + k)
        = nth_error (Raster.data img) (((h - 1 - y) * w + x) * c + k))
  /\ flip (flip img) = img.
Proof.
  intros Hwf w h c.
  split; [reflexivity|]. split; [reflexivity|]. split; [reflexivity|].
  split; [exact (flip_wf Hwf)|]. split; [exact (rows_flip Hwf)|].
  split; [|exact (flip_flip Hwf)].
  intros x y k Hx Hy Hk.
  replace ((y * w + x) * c + k) with (y * (w * c) + (x * c + k)) by lia.
  replace (((h - 1 - y) * w + x) * c + k)
    with ((h - 1 - y) * (w * c) + (x * c + k)) by lia.
  apply (flip_byte Hwf); [exact Hy|]. fold w c. nia.
Qed.

Lemma C8_flip_involution_witness :
  Raster.wf topStripe
  /\ flip (flip topStripe) = topStripe
  /\ Raster.data (flip topStripe)
     = [ 7; 8; 9; 0;  11; 12; 13; 0;
         1; 2; 3; 0;  4; 5; 6; 0;
         10; 20; 30; 255;  40; 50; 60; 255 ]%Z.
Proof.
  assert (Hwf : Raster.wf topStripe) by reflexivity.
  split; [exact Hwf|]. split.
  - exact (proj2 (proj2 (proj2 (proj2 (proj2 (proj2
             (@C8_flip_involution topStripe Hwf))))))).
  - reflexivity.
Defined.

(** ** Further properties of the scanner *)

(** When the content of [imgB] at [tB] is content of [imgA] at [tA], every
    box that covers the latter encloses every box whose edges touch the
    former. *)
Lemma box_enclosed (imgA imgB : Raster.t) (tA tB : Z) (sA sB : Scan) :
  Raster.width imgA = Raster.width imgB ->
  Raster.height imgA = Raster.height imgB ->
  (forall x y, x < Raster.width imgB -> y < Raster.height imgB ->
     isContent imgB tB x y = true -> isContent imgA tA x y = true) ->
  boxCovers imgA tA sA -> boxTouches imgB tB sB ->
  minX sA <= minX sB /\ maxX sB <= maxX sA
  /\ minY sA <= minY sB /\ maxY sB <= maxY sA.
Proof.
  intros Hw Hh Hsub Hcov [[B1 [x1 [Hx1 C1]]] [[B2 [x2 [Hx2 C2]]]
                          [[B3 [y3 [Hy3 C3]]] [B4 [y4 [Hy4 C4]]]]]].
  destruct (Hcov x1 (minY sB)) as [_ R1]; [lia|lia|auto|].
  destruct (Hcov x2 (maxY sB)) as [_ R2]; [lia|lia|auto|].
  destruct (Hcov (minX sB) y3) as [R3 _]; [lia|lia|auto|].
  destruct (Hcov (maxX sB) y4) as [R4 _]; [lia|lia|auto|].
  lia.
Qed.

(** X1 (tightest box).  When some pixel of the frame is above the threshold,
    the box [getContentBounds] returns lies inside the frame, contains every
    pixel above the threshold, and is contained in every other box of the
    frame that does. *)
Theorem getContentBounds_tightest (img : Raster.t) (t : Z) :
  anyContent img t ->
  let b := getContentBoundsAt t img in
  (0 <= Bounds.top b <= Bounds.bottom b)%Z
  /\ (Bounds.bottom b < Z.of_nat (Raster.height img))%Z
  /\ (0 <= Bounds.left b <= Bounds.right b)%Z
  /\ (Bounds.right b < Z.of_nat (Raster.width img))%Z
  /\ (forall x y, x < Raster.width img -> y < Raster.height img ->
        isContent img t x y = true ->
        (Bounds.left b <= Z.of_nat x <= Bounds.right b)%Z
        /\ (Bounds.top b <= Z.of_nat y <= Bounds.bottom b)%Z)
  /\ (forall top bottom left right : Z,
        (forall x y, x < Raster.width img -> y < Raster.height img ->
           isContent img t x y = true ->
           (left <= Z.of_nat x <= right)%Z /\ (top <= Z.of_nat y <= bottom)%Z) ->
        (top <= Bounds.top b)%Z /\ (Bounds.bottom b <= bottom)%Z
        /\ (left <= Bounds.left b)%Z /\ (Bounds.right b <= right)%Z).
Proof.
  intros Hany b.
  destruct (content_bounds_valid Hany) as [[Hv1 Hv2] [Hb Hr]].
  destruct (scanEdges_content Hany) as [_ [Hcov Htouch]].
  fold b in Hv1, Hv2, Hb, Hr.
  unfold b, getContentBoundsAt, boundsOfScan in *. simpl in *.
  repeat split; try lia.
  - destruct (Hcov x y) as [Hx _]; auto. lia.
  - destruct (Hcov x y) as [Hx _]; auto. lia.
  - destruct (Hcov x y) as [_ Hy]; auto. lia.
  - destruct (Hcov x y) as [_ Hy]; auto. lia.
  - destruct Htouch as [[B1 [x1 [Hx1 C1]]] _]. destruct (H _ _ Hx1 B1 C1). lia.
  - destruct Htouch as [_ [[B2 [x2 [Hx2 C2]]] _]]. destruct (H _ _ Hx2 B2 C2). lia.
  - destruct Htouch as [_ [_ [[B3 [y3 [Hy3 C3]]] _]]]. destruct (H _ _ B3 Hy3 C3). lia.
  - destruct Htouch as [_ [_ [_ [B4 [y4 [Hy4 C4]]]]]]. destruct (H _ _ B4 Hy4 C4). lia.
Qed.

Lemma exceeds_lower (alpha : option Z) (t1 t2 : Z) :
  (t1 <= t2)%Z -> exceeds alpha t2 = true -> exceeds alpha t1 = true.
Proof.
  intros Ht. destruct alpha as [a|]; simpl; [|discriminate].
  intros H. apply Z.ltb_lt in H. apply Z.ltb_lt. lia.
Qed.

(** X2 (thresholds nest).  Lowering the threshold can only widen the box: for
    [t1 <= t2] and an image with a pixel above [t2], the bounds at [t1]
    enclose the bounds at [t2].  In the pipeline [t1 = 1] is the per-side
    scan and [t2 = 5] the trimmer's. *)
Theorem bounds_widen_as_threshold_drops (img : Raster.t) (t1 t2 : Z) :
  (t1 <= t2)%Z -> anyContent img t2 ->
  let b1 := getContentBoundsAt t1 img in
  let b2 := getContentBoundsAt t2 img in
  (Bounds.top b1 <= Bounds.top b2)%Z /\ (Bounds.bottom b2 <= Bounds.bottom b1)%Z
  /\ (Bounds.left b1 <= Bounds.left b2)%Z /\ (Bounds.right b2 <= Bounds.right b1)%Z.
Proof.
  intros Ht Hany2 b1 b2.
  assert (Hsub : forall x y, x < Raster.width img -> y < Raster.height img ->
            isContent img t2 x y = true -> isContent img t1 x y = true).
  { intros x y _ _. unfold isContent. apply exceeds_lower. exact Ht. }
  assert (Hany1 : anyContent img t1).
  { destruct Hany2 as [x [y [Hx [Hy Hc]]]]. exists x, y. auto. }
  destruct (scanEdges_content Hany1) as [_ [Hcov1 _]].
  destruct (scanEdges_content Hany2) as [_ [_ Htouch2]].
  destruct (box_enclosed eq_refl eq_refl Hsub Hcov1 Htouch2) as [? [? [? ?]]].
  unfold b1, b2, getContentBoundsAt, boundsOfScan. simpl. lia.
Qed.

Lemma bounds_widen_as_threshold_drops_witness :
  (1 <= 5)%Z /\ anyContent framedBlock 5
  /\ (Bounds.top (getContentBounds framedBlock)
      <= Bounds.top (getContentBoundsAt 5 framedBlock))%Z.
Proof.
  assert (Hany : anyContent framedBlock 5).
  { exists 1, 1. simpl. repeat split; lia. }
  split; [lia|]. split; [exact Hany|].
  exact (proj1 (@bounds_widen_as_threshold_drops framedBlock 1 5
                  ltac:(lia) Hany)).
Defined.

Lemma getContentBounds_tightest_witness :
  anyContent framedBlock 1
  /\ (Bounds.bottom (getContentBounds framedBlock)
      < Z.of_nat (Raster.height framedBlock))%Z.
Proof.
  assert (Hany : anyContent framedBlock 1).
  { exists 1, 1. simpl. repeat split; lia. }
  split; [exact Hany|].
  exact (proj1 (proj2 (@getContentBounds_tightest framedBlock 1 Hany))).
Defined.

(** X3 (only the content mask matters).  Two frames of the same size whose
    pixels agree on being above the threshold get the same bounds: the loops
    read nothing but that comparison, in particular none of the colour
    bytes. *)
Theorem bounds_depend_on_mask_only (img1 img2 : Raster.t) (t : Z) :
  Raster.width img1 = Raster.width img2 ->
  Raster.height img1 = Raster.height img2 ->
  0 < Raster.height img1 ->
  (forall x y, x < Raster.width img1 -> y < Raster.height img1 ->
     isContent img1 t x y = isContent img2 t x y) ->
  getContentBoundsAt t img1 = getContentBoundsAt t img2.
Proof.
  intros Hw Hh Hpos Hmask.
  destruct (content_dec img1 t) as [Hany1|Hno1].
  - assert (Hany2 : anyContent img2 t).
    { destruct Hany1 as [x [y [Hx [Hy Hc]]]]. exists x, y.
      repeat split; try lia. rewrite <- Hmask; assumption. }
    destruct (scanEdges_content Hany1) as [_ [Hcov1 Htouch1]].
    destruct (scanEdges_content Hany2) as [_ [Hcov2 Htouch2]].
    assert (S21 : forall x y, x < Raster.width img2 -> y < Raster.height img2 ->
              isContent img2 t x y = true -> isContent img1 t x y = true).
    { intros x y Hx Hy Hc. rewrite Hmask by lia. exact Hc. }
    assert (S12 : forall x y, x < Raster.width img1 -> y < Raster.height img1 ->
              isContent img1 t x y = true -> isContent img2 t x y = true).
    { intros x y Hx Hy Hc. rewrite <- Hmask by lia. exact Hc. }
    destruct (box_enclosed Hw Hh S21 Hcov1 Htouch2) as [? [? [? ?]]].
    destruct (box_enclosed (eq_sym Hw) (eq_sym Hh) S12 Hcov2 Htouch1)
      as [? [? [? ?]]].
    unfold getContentBoundsAt, boundsOfScan.
    replace (minX (scanEdges img2 t)) with (minX (scanEdges img1 t)) by lia.
    replace (maxX (scanEdges img2 t)) with (maxX (scanEdges img1 t)) by lia.
    replace (minY (scanEdges img2 t)) with (minY (scanEdges img1 t)) by lia.
    replace (maxY (scanEdges img2 t)) with (maxY (scanEdges img1 t)) by lia.
    reflexivity.
  - assert (Hno2 : noContent img2 t).
    { intros x y Hx Hy. rewrite <- Hmask by lia. apply Hno1; lia. }
    destruct (blank_bounds_untouched Hpos Hno1) as [-> _].
    destruct (@blank_bounds_untouched img2 t ltac:(lia) Hno2) as [-> _].
    unfold untouchedBounds. now rewrite Hw, Hh.
Qed.

Lemma bounds_depend_on_mask_only_witness :
  getContentBounds topStripe
  = getContentBounds
      (Raster.mk 2 3 4 [ 0; 0; 0; 255;  0; 0; 0; 255;
                         0; 0; 0; 0;  0; 0; 0; 0;
                         0; 0; 0; 0;  0; 0; 0; 0 ]%Z).
Proof.
  apply (@bounds_depend_on_mask_only topStripe _ 1);
    [reflexivity|reflexivity|simpl; lia|].
  intros x y Hx Hy. simpl in Hx, Hy.
  destruct x as [|[|x]]; try lia; destruct y as [|[|[|y]]]; try lia; reflexivity.
Defined.

(** X4 (the content flag).  On a frame with at least one row the loops raise
    [hasContent] exactly when some pixel is above the threshold; and whenever
    [minX < maxX] and [minY < maxY] hold the flag is raised, so the
    trimmer's guard [hasContent && minX < maxX && minY < maxY] decides as
    the two comparisons alone. *)
Theorem hasContent_flag (img : Raster.t) (t : Z) :
  let s := scanEdges img t in
  (0 < Raster.height img -> (hasContent s = true <-> anyContent img t))
  /\ hasContent s && (minX s <? maxX s) && (minY s <? maxY s)
     = (minX s <? maxX s) && (minY s <? maxY s).
Proof.
  intros s. split.
  - intros Hh. split.
    + intros Hflag. destruct (content_dec img t) as [Hany|Hno]; [exact Hany|].
      subst s. rewrite scanEdges_empty in Hflag by assumption. discriminate.
    + intros Hany. apply (scanEdges_content Hany).
  - destruct (content_dec img t) as [Hany|Hno].
    + subst s. now rewrite (proj1 (scanEdges_content Hany)).
    + destruct (Nat.eq_dec (Raster.height img) 0) as [Hz|Hnz].
      * destruct (scanEdges_no_rows img t Hz) as [Ha Hb]. subst s.
        rewrite Ha, Hb. simpl. now rewrite !andb_false_r.
      * subst s. rewrite scanEdges_empty by (try assumption; lia). reflexivity.
Qed.

(** ** Both sides of the jersey *)

Lemma noContent_flip (img : Raster.t) (t : Z) :
  Raster.wf img -> noContent img t -> noContent (flip img) t.
Proof.
  intros Hwf Hno x y Hx Hy. simpl in Hx, Hy.
  rewrite (isContent_flip Hwf) by assumption. apply Hno; lia.
Qed.

(** With content, the mirror's scan keeps the columns. *)
Lemma scanEdges_flip_columns (img : Raster.t) (t : Z) :
  Raster.wf img -> anyContent img t ->
  minX (scanEdges (flip img) t) = minX (scanEdges img t)
  /\ maxX (scanEdges (flip img) t) = maxX (scanEdges img t).
Proof.
  intros Hwf Hany.
  destruct (scanEdges_content Hany) as [_ [Hcov Htouch]].
  destruct (scanEdges_content (anyContent_flip Hwf Hany)) as [_ [Hcov' Htouch']].
  destruct Htouch as [_ [_ [[B3 [y3 [Hy3 C3]]] [B4 [y4 [Hy4 C4]]]]]].
  destruct Htouch' as [_ [_ [[B3' [y3' [Hy3' C3']]] [B4' [y4' [Hy4' C4']]]]]].
  change (Raster.height (flip img)) with (Raster.height img) in *.
  change (Raster.width (flip img)) with (Raster.width img) in *.
  set (h := Raster.height img) in *.
  rewrite (isContent_flip Hwf) in C3', C4' by assumption. fold h in C3', C4'.
  destruct (Hcov (minX (scanEdges (flip img) t)) (h - 1 - y3')) as [R1 _];
    [exact B3'|fold h; lia|exact C3'|].
  destruct (Hcov (maxX (scanEdges (flip img) t)) (h - 1 - y4')) as [R2 _];
    [exact B4'|fold h; lia|exact C4'|].
  assert (M3 : isContent (flip img) t (minX (scanEdges img t)) (h - 1 - y3) = true).
  { rewrite (isContent_flip Hwf) by (try assumption; fold h; lia). fold h.
    replace (h - 1 - (h - 1 - y3)) with y3 by lia. exact C3. }
  assert (M4 : isContent (flip img) t (maxX (scanEdges img t)) (h - 1 - y4) = true).
  { rewrite (isContent_flip Hwf) by (try assumption; fold h; lia). fold h.
    replace (h - 1 - (h - 1 - y4)) with y4 by lia. exact C4. }
  destruct (Hcov' (minX (scanEdges img t)) (h - 1 - y3)) as [R3 _];
    [exact B3|change (Raster.height (flip img)) with h; lia|exact M3|].
  destruct (Hcov' (maxX (scanEdges img t)) (h - 1 - y4)) as [R4 _];
    [exact B4|change (Raster.height (flip img)) with h; lia|exact M4|].
  lia.
Qed.

(** X5 (the two sides agree).  For a well-formed buffer with at least one
    row, with or without content, the bounds of its vertical flip have the
    same [left], [right], [width] and [height] as the bounds of the buffer
    itself: the back side is measured as wide and as high as the front. *)
Theorem flip_keeps_columns_and_extent (img : Raster.t) (t : Z) :
  Raster.wf img -> 0 < Raster.height img ->
  let frontBounds := getContentBoundsAt t img in
  let backBounds := getContentBoundsAt t (flip img) in
  Bounds.left backBounds = Bounds.left frontBounds
  /\ Bounds.right backBounds = Bounds.right frontBounds
  /\ Bounds.width backBounds = Bounds.width frontBounds
  /\ Bounds.height backBounds = Bounds.height frontBounds.
Proof.
  intros Hwf Hh frontBounds backBounds.
  destruct (content_dec img t) as [Hany|Hno].
  - destruct (scanEdges_flip_columns Hwf Hany) as [Hl Hr].
    destruct (scanEdges_flip_rows Hwf Hany) as [Ht [Hb [Hlt Hle]]].
    unfold frontBounds, backBounds, getContentBoundsAt, boundsOfScan. simpl.
    rewrite Hl, Hr, Ht, Hb. repeat split; lia.
  - destruct (blank_bounds_untouched Hh Hno) as [Hf _].
    destruct (@blank_bounds_untouched (flip img) t Hh (noContent_flip Hwf Hno))
      as [Hb _].
    unfold frontBounds, backBounds. rewrite Hf, Hb.
    repeat split; reflexivity.
Qed.

Lemma flip_keeps_columns_and_extent_witness :
  Raster.wf framedBlock /\ 0 < Raster.height framedBlock
  /\ Bounds.height (getContentBounds (flip framedBlock))
     = Bounds.height (getContentBounds framedBlock).
Proof.
  assert (Hwf : Raster.wf framedBlock) by reflexivity.
  assert (Hh : 0 < Raster.height framedBlock) by (simpl; lia).
  split; [exact Hwf|]. split; [exact Hh|].
  exact (proj2 (proj2 (proj2
           (@flip_keeps_columns_and_extent framedBlock 1 Hwf Hh)))).
Defined.

(** ** Further properties of the composite *)

Section CompositeFacts.

Variable sharp_trim : Raster.t -> Raster.t.
Variable img : Raster.t.
Variable collarPath : option (FileState Meta).
Variable gap : Z.

Let trimmed := trimStage sharp_trim img.
Let backBounds := getContentBounds (flip trimmed).
Let frontBounds := getContentBounds trimmed.
Let outcome := processJerseyImage sharp_trim (Readable img) collarPath gap.

(** The two outcomes of the server's pipeline on a readable input. *)
Lemma processJerseyImage_outcome :
  (collarPath = Some Corrupt
   /\ outcome = Throw (ImageProcessingFailed UnsupportedImageFormat))
  \/ (exists collar,
        prepareCollar collarPath (Z.of_nat (Raster.width trimmed)) = Ok collar
        /\ outcome
           = Ok (stackAndCompose (flip trimmed) trimmed backBounds frontBounds
                                 collar gap (Z.of_nat (Raster.width trimmed)))).
Proof.
  unfold outcome.
  destruct (prepareCollar_cases collarPath (Z.of_nat (Raster.width trimmed)))
    as [[-> _]|[[collarMeta [-> Hc]]|[_ Hc]]].
  - left. split; [reflexivity|]. apply processJerseyImage_corrupt_collar.
  - right. eexists. split; [exact Hc|].
    apply (processJerseyImage_ok sharp_trim img _ gap Hc).
  - right. eexists. split; [exact Hc|].
    apply (processJerseyImage_ok sharp_trim img _ gap Hc).
Qed.

Lemma stackAndCompose_jersey_layers (backSide frontSide : Raster.t)
    (bb fb : Bounds.t) (collar : Collar) (width : Z) :
  exists rest,
    compositeLayers (stackAndCompose backSide frontSide bb fb collar gap width)
    = {| Layer.input := Jersey backSide;
         Layer.top := backTop (stackLayout bb fb gap); Layer.left := 0 |}
      :: {| Layer.input := Jersey frontSide;
            Layer.top := frontTop (stackLayout bb fb gap); Layer.left := 0 |}
      :: rest.
Proof.
  unfold stackAndCompose. destruct (collarBuffer collar); simpl; eexists; reflexivity.
Qed.

(** X9 (canvas height from the content height).  For a well-formed trimmed
    buffer with at least one row, the back side has the same measured content
    height as the front, and every composite the server's pipeline returns
    is created with height [2 * frontBounds.height + gap - 1]; this holds
    with and without content. *)
Theorem canvas_height_from_content_height (composite : Composite) :
  Raster.wf trimmed -> 0 < Raster.height trimmed ->
  outcome = Ok composite ->
  Bounds.height backBounds = Bounds.height frontBounds
  /\ createHeight composite = (2 * Bounds.height frontBounds + gap - 1)%Z.
Proof.
  intros Hwf Hh Hout.
  assert (Heq : Bounds.height backBounds = Bounds.height frontBounds
                /\ (Bounds.bottom backBounds - Bounds.top backBounds
                    = Bounds.height backBounds - 1)%Z
                /\ (Bounds.bottom frontBounds - Bounds.top frontBounds
                    = Bounds.height frontBounds - 1)%Z).
  { unfold backBounds, frontBounds, getContentBounds.
    destruct (content_dec trimmed 1) as [Hany|Hno].
    - destruct (scanEdges_flip_rows Hwf Hany) as [Ht [Hb [Hlt Hle]]].
      unfold getContentBoundsAt, boundsOfScan. simpl. rewrite Ht, Hb. lia.
    - destruct (blank_bounds_untouched Hh Hno) as [-> _].
      destruct (@blank_bounds_untouched (flip trimmed) 1 Hh
                  (noContent_flip Hwf Hno)) as [-> _].
      unfold untouchedBounds, boundsOfScan. simpl. lia. }
  destruct Heq as [Heq [Hb Hf]].
  destruct processJerseyImage_outcome as [[_ E]|[collar [_ E]]];
    rewrite E in Hout; [discriminate Hout|].
  injection Hout as <-.
  split; [exact Heq|].
  unfold stackAndCompose. cbn [createHeight].
  unfold stackLayout. cbn [totalHeight]. lia.
Qed.

End CompositeFacts.

Lemma canvas_height_from_content_height_witness :
  Raster.wf (trimStage trimNothing tallJersey)
  /\ 0 < Raster.height (trimStage trimNothing tallJersey)
  /\ exists composite,
       processJerseyImage trimNothing (Readable tallJersey) None (-18)
       = Ok composite
       /\ createHeight composite = 21%Z.
Proof.
  assert (Hwf : Raster.wf (trimStage trimNothing tallJersey))
    by (vm_compute; reflexivity).
  assert (Hh : 0 < Raster.height (trimStage trimNothing tallJersey))
    by (vm_compute; lia).
  split; [exact Hwf|]. split; [exact Hh|].
  destruct (processJerseyImage trimNothing (Readable tallJersey) None (-18))
    as [composite|e] eqn:Hout; [|vm_compute in Hout; discriminate Hout].
  exists composite. split; [reflexivity|].
  destruct (@canvas_height_from_content_height trimNothing tallJersey None (-18)
              composite Hwf Hh Hout) as [_ H].
  rewrite H. reflexivity.
Defined.

(** ** Rendered outputs *)

(** The rows a scan spans never exceed the frame: with at least one row the
    difference [maxY - minY] is at most [height - 1], and without rows both
    are 0. *)
Lemma scan_extent (img : Raster.t) (t : Z) :
  let s := scanEdges img t in
  (0 < Raster.height img ->
   (Z.of_nat (maxY s) - Z.of_nat (minY s) <= Z.of_nat (Raster.height img) - 1)%Z)
  /\ (Raster.height img = 0 -> minY s = 0 /\ maxY s = 0).
Proof.
  intros s. split.
  - intros Hh. destruct (content_dec img t) as [Hany|Hno].
    + destruct (scanEdges_content Hany) as [_ [_ [_ [[B2 _] _]]]].
      fold s in B2. lia.
    + unfold s. rewrite scanEdges_empty by assumption. simpl. lia.
  - apply scanEdges_no_rows.
Qed.

(** C6 (topmost row).  In every composite the server's pipeline returns and
    sharp composes (canvas of positive size, no layer larger than the
    canvas), the back layer is placed at [-backBounds.top], so its top
    content row is canvas row 0, and the front layer's top content row is at
    or below row 0: the topmost content row of the stack is row 0, and no
    placement of a composed output puts content above it. *)
Theorem C6_topmost_content_at_row_zero (sharp_trim : Raster.t -> Raster.t)
    (img : Raster.t) (collarPath : option (FileState Meta)) (gap : Z)
    (out : Composite) :
  processJerseyImage sharp_trim (Readable img) collarPath gap = Ok out ->
  sharpComposes out ->
  let trimmed := trimStage sharp_trim img in
  let backBounds := getContentBounds (flip trimmed) in
  let frontBounds := getContentBounds trimmed in
  exists back front rest,
    compositeLayers out = back :: front :: rest
    /\ Layer.top back = (- Bounds.top backBounds)%Z
    /\ (Layer.top back + Bounds.top backBounds = 0)%Z
    /\ (0 <= Layer.top front + Bounds.top frontBounds)%Z
    /\ Z.min (Layer.top back + Bounds.top backBounds)
             (Layer.top front + Bounds.top frontBounds) = 0%Z
    /\ topmostContentRow backBounds frontBounds
         (stackLayout backBounds frontBounds gap) = 0%Z.
Proof.
  intros Hout [_ [Hpos Hfit]] trimmed backBounds frontBounds.
  destruct (processJerseyImage_outcome sharp_trim img collarPath gap)
    as [[_ E]|[collar [_ E]]]; rewrite E in Hout; [discriminate Hout|].
  injection Hout as <-. fold trimmed backBounds frontBounds in Hpos, Hfit |- *.
  destruct (stackAndCompose_jersey_layers gap (flip trimmed) trimmed
              backBounds frontBounds collar (Z.of_nat (Raster.width trimmed)))
    as [rest Hl].
  rewrite Hl in Hfit.
  apply Forall_cons_iff in Hfit. destruct Hfit as [_ Hfit].
  apply Forall_cons_iff in Hfit. destruct Hfit as [[_ Hfront] _].
  unfold stackAndCompose in Hpos, Hfront. cbn [createHeight] in Hpos, Hfront.
  destruct (scan_extent trimmed 1) as [Hext Hzero].
  assert (Hrow : (0 <= frontTop (stackLayout backBounds frontBounds gap)
                       + Bounds.top frontBounds)%Z).
  { unfold stackLayout in *. cbn [totalHeight frontTop] in *.
    unfold frontBounds, getContentBounds, getContentBoundsAt, boundsOfScan in *.
    cbn [Bounds.top Bounds.bottom] in *.
    destruct (Nat.eq_dec (Raster.height trimmed) 0) as [Hz|Hnz].
    - destruct (Hzero Hz) as [Ha Hb]. rewrite Ha, Hb in *. lia.
    - specialize (Hext ltac:(lia)). lia. }
  exists {| Layer.input := Jersey (flip trimmed);
            Layer.top := backTop (stackLayout backBounds frontBounds gap);
            Layer.left := 0 |},
         {| Layer.input := Jersey trimmed;
            Layer.top := frontTop (stackLayout backBounds frontBounds gap);
            Layer.left := 0 |}, rest.
  split; [exact Hl|]. cbn [Layer.top].
  assert (Hback : (backTop (stackLayout backBounds frontBounds gap)
                   = - Bounds.top backBounds)%Z)
    by (unfold stackLayout; cbn [backTop]; lia).
  unfold topmostContentRow, backTopRow, frontTopRow.
  rewrite Hback. repeat split; try lia.
Qed.

Lemma C6_topmost_content_at_row_zero_witness :
  exists out,
    processJerseyImage trimNothing (Readable tallJersey) None (-18) = Ok out
    /\ sharpComposes out
    /\ topmostContentRow
         (getContentBounds (flip (trimStage trimNothing tallJersey)))
         (getContentBounds (trimStage trimNothing tallJersey))
         (stackLayout
            (getContentBounds (flip (trimStage trimNothing tallJersey)))
            (getContentBounds (trimStage trimNothing tallJersey)) (-18)) = 0%Z.
Proof.
  set (out := stackAndCompose (flip tallJersey) tallJersey
                (getContentBounds (flip tallJersey)) (getContentBounds tallJersey)
                noCollar (-18) 3).
  assert (Hout : processJerseyImage trimNothing (Readable tallJersey) None (-18)
                 = Ok out) by (vm_compute; reflexivity).
  assert (Hs : sharpComposes out).
  { split; [reflexivity|]. split; [reflexivity|].
    repeat (constructor; [split; vm_compute; discriminate|]). constructor. }
  exists out. split; [exact Hout|]. split; [exact Hs|].
  destruct (@C6_topmost_content_at_row_zero trimNothing tallJersey None (-18)
              out Hout Hs) as [back [front [rest [_ [_ [_ [_ [_ H]]]]]]]].
  exact H.
Defined.

(** X11 (the collar is centred).  For a readable collar of W x H, in every
    composite the server's pipeline returns the collar layer is
    [collarWidth] x [collarHeight] with
    [2 * collarWidth <= W <= 2 * collarWidth + 1] (likewise for H), and its
    offsets leave margins that differ by at most one pixel, the larger one
    on the right and at the bottom:
    [0 <= (width - collarWidth) - 2 * left <= 1] and
    [0 <= (totalHeight - collarHeight) - 2 * top <= 1].  When sharp composes
    the result, the collar lies inside the canvas. *)
Theorem collar_is_centred (sharp_trim : Raster.t -> Raster.t)
    (img : Raster.t) (collarMeta : Meta) (gap : Z) (composite : Composite) :
  processJerseyImage sharp_trim (Readable img) (Some (Readable collarMeta)) gap
  = Ok composite ->
  exists back front collar buf,
    compositeLayers composite = [back; front; collar]
    /\ Layer.input collar = CollarOverlay buf
    /\ (0 <= metaWidth collarMeta - 2 * resizeWidth buf <= 1)%Z
    /\ (0 <= metaHeight collarMeta - 2 * resizeHeight buf <= 1)%Z
    /\ (0 <= (createWidth composite - resizeWidth buf)
             - 2 * Layer.left collar <= 1)%Z
    /\ (0 <= (createHeight composite - resizeHeight buf)
             - 2 * Layer.top collar <= 1)%Z
    /\ (sharpComposes composite ->
        (0 <= Layer.left collar)%Z
        /\ (Layer.left collar + resizeWidth buf <= createWidth composite)%Z
        /\ (0 <= Layer.top collar)%Z
        /\ (Layer.top collar + resizeHeight buf <= createHeight composite)%Z).
Proof.
  intros Hout.
  rewrite (@processJerseyImage_ok sharp_trim img (Some (Readable collarMeta)) gap
             _ eq_refl) in Hout.
  injection Hout as <-.
  do 4 eexists.
  unfold sharpComposes, stackAndCompose, loadCollar.
  cbn [collarBuffer collarWidth collarHeight collarLeft compositeLayers
       createWidth createHeight app].
  split; [reflexivity|].
  cbn [Layer.input Layer.top Layer.left].
  split; [reflexivity|].
  cbn [resizeWidth resizeHeight].
  rewrite !floor_half, !floor_halve.
  set (W := metaWidth collarMeta). set (H := metaHeight collarMeta).
  set (width := Z.of_nat (Raster.width (trimStage sharp_trim img))).
  set (total := totalHeight _).
  pose proof (Z.div_mod W 2 ltac:(lia)).
  pose proof (Z.mod_pos_bound W 2 ltac:(lia)).
  pose proof (Z.div_mod H 2 ltac:(lia)).
  pose proof (Z.mod_pos_bound H 2 ltac:(lia)).
  pose proof (Z.div_mod (width - W / 2) 2 ltac:(lia)).
  pose proof (Z.mod_pos_bound (width - W / 2) 2 ltac:(lia)).
  pose proof (Z.div_mod (total - H / 2) 2 ltac:(lia)).
  pose proof (Z.mod_pos_bound (total - H / 2) 2 ltac:(lia)).
  split; [lia|]. split; [lia|]. split; [lia|]. split; [lia|].
  intros [_ [_ Hfit]].
  apply Forall_cons_iff in Hfit. destruct Hfit as [_ Hfit].
  apply Forall_cons_iff in Hfit. destruct Hfit as [_ Hfit].
  apply Forall_cons_iff in Hfit. destruct Hfit as [Hcollar _].
  unfold layerFits in Hcollar.
  cbn [Layer.input resizeWidth resizeHeight createWidth createHeight] in Hcollar.
  fold W H width total in Hcollar. lia.
Qed.

Lemma collar_is_centred_witness :
  exists composite,
    processJerseyImage trimNothing (Readable tallJersey)
                       (Some (Readable smallCollar)) (-18) = Ok composite
    /\ sharpComposes composite
    /\ exists back front collar,
         compositeLayers composite = [back; front; collar]
         /\ (0 <= Layer.left collar)%Z /\ (0 <= Layer.top collar)%Z.
Proof.
  set (composite := stackAndCompose (flip tallJersey) tallJersey
                      (getContentBounds (flip tallJersey))
                      (getContentBounds tallJersey)
                      (loadCollar smallCollar 3) (-18) 3).
  assert (Hout : processJerseyImage trimNothing (Readable tallJersey)
                   (Some (Readable smallCollar)) (-18) = Ok composite)
    by (vm_compute; reflexivity).
  assert (Hs : sharpComposes composite).
  { split; [reflexivity|]. split; [reflexivity|].
    constructor; [split; vm_compute; discriminate|].
    constructor; [split; vm_compute; discriminate|].
    constructor; [split; vm_compute; (split; [reflexivity|discriminate])|].
    constructor. }
  exists composite. split; [exact Hout|]. split; [exact Hs|].
  destruct (@collar_is_centred trimNothing tallJersey smallCollar (-18)
              composite Hout)
    as [back [front [collar [buf [Hl [_ [_ [_ [_ [_ Hin]]]]]]]]]].
  exists back, front, collar. split; [exact Hl|].
  destruct (Hin Hs) as [H1 [_ [H2 _]]]. split; assumption.
Defined.

(** X12 (when the pipeline fails).  A missing or undecodable input aborts
    the server's pipeline before the collar is looked at; with a readable
    input, a collar file that exists and does not decode aborts it; and
    whenever the pipeline returns a composite, the input was readable and the
    collar was not such a file.  Every failure reaches the caller wrapped as
    "Image processing failed". *)
Theorem processJerseyImage_failures (sharp_trim : Raster.t -> Raster.t)
    (inputPath : FileState Raster.t) (collarPath : option (FileState Meta))
    (gap : Z) :
  (inputPath = Missing ->
   processJerseyImage sharp_trim inputPath collarPath gap
   = Throw (ImageProcessingFailed InputFileIsMissing))
  /\ (inputPath = Corrupt ->
      processJerseyImage sharp_trim inputPath collarPath gap
      = Throw (ImageProcessingFailed UnsupportedImageFormat))
  /\ ((exists img, inputPath = Readable img) -> collarPath = Some Corrupt ->
      processJerseyImage sharp_trim inputPath collarPath gap
      = Throw (ImageProcessingFailed UnsupportedImageFormat))
  /\ (forall composite,
        processJerseyImage sharp_trim inputPath collarPath gap = Ok composite ->
        (exists img, inputPath = Readable img) /\ collarPath <> Some Corrupt)
  /\ (forall e,
        processJerseyImage sharp_trim inputPath collarPath gap = Throw e ->
        exists cause, e = ImageProcessingFailed cause).
Proof.
  split; [intros ->; reflexivity|]. split; [intros ->; reflexivity|].
  split; [intros [img ->] ->; reflexivity|].
  destruct inputPath as [| |img].
  - split; [intros c H; discriminate H|].
    intros e H. inversion H. eexists. reflexivity.
  - split; [intros c H; discriminate H|].
    intros e H. inversion H. eexists. reflexivity.
  - destruct (processJerseyImage_outcome sharp_trim img collarPath gap)
      as [[Hc E]|[collar [_ E]]]; rewrite E.
    + split; [intros c H; discriminate H|].
      intros e H. inversion H. eexists. reflexivity.
    + split; [|intros e H; discriminate H].
      intros c _. split; [eexists; reflexivity|].
      intros ->. rewrite processJerseyImage_corrupt_collar in E. discriminate E.
Qed.

(** ** The routes *)

Lemma prefix_append (needle : string) : forall hay,
  prefix needle hay = true <-> exists post, hay = String.append needle post.
Proof.
  induction needle as [|a needle IH]; intros hay.
  - split; [intros _; exists hay; reflexivity|].
    intros _. destruct hay; reflexivity.
  - destruct hay as [|b hay]; simpl.
    + split; [discriminate|intros [post H]; discriminate H].
    + destruct (Ascii.ascii_dec a b) as [->|Hne].
      * rewrite IH. split; intros [post H]; exists post.
        -- now rewrite H.
        -- now inversion H.
      * split; [discriminate|].
        intros [post H]. simpl in H. congruence.
Qed.

(** [includes] is the substring test. *)
Lemma includes_append (needle : string) : forall hay,
  includes needle hay = true
  <-> exists pre post, hay = String.append pre (String.append needle post).
Proof.
  induction hay as [|b hay IH].
  - change (includes needle "") with (prefix needle "" || false).
    rewrite orb_false_r, prefix_append. split.
    + intros [post H]. exists EmptyString, post. exact H.
    + intros [pre [post H]]. destruct pre as [|c pre]; [|discriminate H].
      exists post. exact H.
  - change (includes needle (String b hay))
      with (prefix needle (String b hay) || includes needle hay).
    split.
    + intros H. apply orb_prop in H. destruct H as [H|H].
      * apply prefix_append in H. destruct H as [post H].
        exists EmptyString, post. exact H.
      * apply IH in H. destruct H as [pre [post H]].
        exists (String b pre), post. simpl. now rewrite H.
    + intros [pre [post H]]. apply orb_true_intro.
      destruct pre as [|c pre].
      * left. apply prefix_append. exists post. exact H.
      * right. apply IH. exists pre, post. simpl in H. now inversion H.
Qed.

Lemma allowedTypes_test_append (s : string) :
  allowedTypes_test s = true
  <-> exists alternative pre post,
        In alternative allowedTypes
        /\ s = String.append pre (String.append alternative post).
Proof.
  unfold allowedTypes_test. rewrite existsb_exists. split.
  - intros [alt [Hin H]]. apply includes_append in H.
    destruct H as [pre [post H]]. exists alt, pre, post. auto.
  - intros [alt [pre [post [Hin H]]]]. exists alt. split; [exact Hin|].
    apply includes_append. exists pre, post. exact H.
Qed.

(** X13 (what the upload filter lets through).  [fileFilter] accepts a file
    exactly when its mimetype contains one of jpeg, jpg, png, gif, webp
    anywhere, as sent, and the lower-cased extension of its original name
    contains one of them anywhere; the tests are not anchored and the two
    words need not be the same. *)
Theorem fileFilter_accepts_iff (P : Platform) (f : UploadedFile) :
  fileFilter P f = Ok true
  <-> (exists alternative pre post,
         In alternative allowedTypes
         /\ mimetype f = String.append pre (String.append alternative post))
      /\ (exists alternative pre post,
            In alternative allowedTypes
            /\ toLowerCase P (path_extname P (originalname f))
               = String.append pre (String.append alternative post)).
Proof.
  rewrite <- !allowedTypes_test_append. unfold fileFilter.
  destruct (allowedTypes_test (mimetype f));
    destruct (allowedTypes_test (toLowerCase P (path_extname P (originalname f))));
    simpl; split; try tauto; try discriminate; intros [? ?]; discriminate.
Qed.

(** X14 (status of upload errors).  A file the filter rejects reaches the
    error middleware as a plain [Error] and is answered 500 with
    "Only image files are allowed!"; every [MulterError] is answered 400,
    the size limit with its own text; any other error is answered 500 with
    its message, or "Internal server error" when the message is empty. *)
Theorem upload_error_statuses (P : Platform) :
  (forall f e, fileFilter P f = Throw e ->
     errorMiddleware e
     = {| statusCode := 500; body := ErrorBody "Only image files are allowed!" |})
  /\ (forall message,
        errorMiddleware (MulterError "LIMIT_FILE_SIZE" message)
        = {| statusCode := 400;
             body := ErrorBody "File too large. Maximum size is 10MB" |})
  /\ (forall code message,
        statusCode (errorMiddleware (MulterError code message)) = 400)
  /\ (forall message,
        errorMiddleware (PlainError message)
        = {| statusCode := 500;
             body := ErrorBody (if String.eqb message "" then "Internal server error"
                                else message) |}).
Proof.
  split; [|split; [|split]].
  - intros f e. unfold fileFilter.
    destruct (allowedTypes_test (mimetype f)
              && allowedTypes_test (toLowerCase P (path_extname P (originalname f))));
      [discriminate|].
    intros H. inversion H. reflexivity.
  - reflexivity.
  - intros code message. simpl. destruct (String.eqb code "LIMIT_FILE_SIZE"); reflexivity.
  - intros message. simpl. destruct (String.eqb message ""); reflexivity.
Qed.

Lemma writeDisk_same (disk : Disk) (path : string) (f : FileState Raster.t) :
  writeDisk disk path f path = f.
Proof. unfold writeDisk. now rewrite String.eqb_refl. Qed.

Lemma writeDisk_other (disk : Disk) (path q : string) (f : FileState Raster.t) :
  q <> path -> writeDisk disk path f q = disk q.
Proof.
  intros Hne. unfold writeDisk. apply String.eqb_neq in Hne. now rewrite Hne.
Qed.

(** With a numeric gap the pipeline fails on an unreadable upload or a
    corrupt collar file, and on nothing else. *)
Lemma runPipeline_outcome (P : Platform) (disk : Disk) (inputPath : string)
    (gap : Z) :
  (((forall img, disk inputPath <> Readable img) \/ disk (collarFile P) = Corrupt)
   /\ exists cause,
        runPipeline P disk inputPath (Some gap)
        = Throw (ImageProcessingFailed cause))
  \/ ((exists img, disk inputPath = Readable img)
      /\ disk (collarFile P) <> Corrupt
      /\ exists composite, runPipeline P disk inputPath (Some gap) = Ok composite).
Proof.
  unfold runPipeline. destruct (disk inputPath) as [| |img] eqn:Ein.
  - left. split; [left; discriminate|]. eexists. reflexivity.
  - left. split; [left; discriminate|]. eexists. reflexivity.
  - set (collarPath := if existsSync (disk (collarFile P))
                       then Some (metadataOf (disk (collarFile P))) else None).
    destruct (processJerseyImage_outcome (sharpTrim P) img collarPath gap)
      as [[Hc E]|[collar [_ E]]].
    + left. split; [|eexists; exact E]. right.
      unfold collarPath in Hc.
      destruct (disk (collarFile P)); simpl in Hc; congruence.
    + right. split; [eauto|]. split; [|eexists; exact E].
      intros Hcorrupt. unfold collarPath in E. rewrite Hcorrupt in E.
      simpl in E. rewrite processJerseyImage_corrupt_collar in E. discriminate E.
Qed.

Section RouteFacts.

Variable P : Platform.
Variable disk : Disk.
Variable req : Request.
Variable outputId : string.
Variable inputPath : string.
Hypothesis Hfile : file req = Some inputPath.

Let outputPath := path_join P (outputsDir P) (String.append outputId ".png").
Let result := postProcessJersey P disk req outputId.

Lemma processJerseyCatch_frame (d : Disk) (e : HandlerError) :
  snd (processJerseyCatch P d inputPath e) inputPath = Missing
  /\ forall q, q <> inputPath -> snd (processJerseyCatch P d inputPath e) q = d q.
Proof.
  unfold processJerseyCatch. simpl.
  destruct (d inputPath) eqn:E; simpl; rewrite ?writeDisk_same; try rewrite E;
    (split; [reflexivity|]); intros q Hq; rewrite ?writeDisk_other by exact Hq;
    reflexivity.
Qed.

(** X15 (the upload never outlives the request).  Whatever the pipeline
    does, after [POST /api/process-jersey] with a file the upload's path
    holds no file, and no path other than the upload's and the output's has
    changed. *)
Theorem upload_never_outlives_request :
  snd result inputPath = Missing
  /\ forall q, q <> inputPath -> q <> outputPath -> snd result q = disk q.
Proof.
  unfold result, postProcessJersey. rewrite Hfile. fold outputPath.
  destruct (runPipeline P disk inputPath (gapOf P (bodyGap req)))
    as [processedBuffer|e].
  - unfold unlinkSync.
    destruct (existsSync
                (writeDisk disk outputPath (Readable (render P processedBuffer))
                           inputPath)) eqn:Ex.
    + simpl. rewrite writeDisk_same. split; [reflexivity|].
      intros q Hq Hq'. now rewrite !writeDisk_other.
    + destruct (processJerseyCatch_frame
                  (writeDisk disk outputPath (Readable (render P processedBuffer)))
                  (NoSuchFile inputPath)) as [Hm Hf].
      split; [exact Hm|]. intros q Hq Hq'. rewrite Hf by exact Hq.
      now rewrite writeDisk_other.
  - destruct (processJerseyCatch_frame disk (PipelineFailed e)) as [Hm Hf].
    split; [exact Hm|]. intros q Hq _. now apply Hf.
Qed.

Variable gap : Z.
Hypothesis Hgap : gapOf P (bodyGap req) = Some gap.

(** X16 (what the route answers).  With a file and a numeric gap: when the
    upload does not decode, or the collar file exists and does not decode,
    the route answers 500 with error "Failed to process image" and a message
    that starts "Image processing failed: ", and leaves every path but the
    upload's as it was; and it answers 200 only when the upload decoded and
    the collar file is not such a file. *)
Theorem route_answers :
  ((forall img, disk inputPath <> Readable img) \/ disk (collarFile P) = Corrupt ->
   (exists cause,
      fst result
      = {| statusCode := 500;
           body := FailureBody "Failed to process image"
                     (String.append "Image processing failed: "
                                    (sharpMessage P cause)) |})
   /\ forall q, q <> inputPath -> snd result q = disk q)
  /\ (statusCode (fst result) = 200 ->
      (exists img, disk inputPath = Readable img)
      /\ disk (collarFile P) <> Corrupt).
Proof.
  unfold result, postProcessJersey. rewrite Hfile, Hgap. fold outputPath.
  destruct (runPipeline_outcome P disk inputPath gap)
    as [[Hbad [cause ->]]|[[img Hin] [Hcollar [composite ->]]]].
  - destruct (processJerseyCatch_frame disk
                (PipelineFailed (ImageProcessingFailed cause))) as [_ Hf].
    split; [|discriminate].
    intros _. split; [exists cause; reflexivity|exact Hf].
  - split.
    + intros [Hbad|Hbad]; [elim (Hbad img Hin)|contradiction].
    + intros _. split; [eauto|exact Hcollar].
Qed.

(** X17 (POST then GET).  When the route answers 200 and the output path is
    not the upload's, the body carries [imageId = outputId] and the download
    URL [protocol://host/outputs/outputId.png], the output path holds the
    rendering of the composite the pipeline returned, and
    [GET /api/image/outputId] on the new disk answers 200 with that path. *)
Theorem post_then_get :
  outputPath <> inputPath ->
  statusCode (fst result) = 200 ->
  body (fst result)
  = SuccessBody "Jersey image processed successfully"
      (String.append (String.append (protocol req)
                        (String.append "://" (host req)))
         (String.append "/outputs/" (String.append outputId ".png")))
      outputId
  /\ (exists composite,
        runPipeline P disk inputPath (Some gap) = Ok composite
        /\ snd result outputPath = Readable (render P composite))
  /\ getImage P (snd result) outputId
     = {| statusCode := 200; body := FileBody outputPath |}.
Proof.
  intros Hne. unfold result, postProcessJersey. rewrite Hfile, Hgap.
  fold outputPath.
  destruct (runPipeline_outcome P disk inputPath gap)
    as [[_ [cause ->]]|[[img Hin] [_ [composite ->]]]]; [discriminate|].
  unfold unlinkSync.
  assert (Ex : existsSync
                 (writeDisk disk outputPath (Readable (render P composite))
                            inputPath) = true).
  { rewrite writeDisk_other by congruence. now rewrite Hin. }
  rewrite Ex. simpl. intros _.
  assert (Hout : writeDisk
                   (writeDisk disk outputPath (Readable (render P composite)))
                   inputPath Missing outputPath
                 = Readable (render P composite)).
  { rewrite writeDisk_other by exact Hne. apply writeDisk_same. }
  split; [reflexivity|]. split.
  - exists composite. split; [reflexivity|exact Hout].
  - unfold getImage. fold outputPath. now rewrite Hout.
Qed.

End RouteFacts.

Lemma upload_never_outlives_request_witness :
  file sampleRequest = Some "uploads/u1-shirt.png"%string
  /\ snd (postProcessJersey samplePlatform sampleDisk sampleRequest "abc")
         "uploads/u1-shirt.png"%string = Missing.
Proof.
  split; [reflexivity|].
  exact (proj1 (@upload_never_outlives_request samplePlatform sampleDisk
                  sampleRequest "abc" "uploads/u1-shirt.png" eq_refl)).
Defined.

Lemma route_answers_witness :
  file tallRequest = Some "uploads/u2-tall.png"%string
  /\ gapOf samplePlatform (bodyGap tallRequest) = Some (-18)%Z
  /\ statusCode (fst (postProcessJersey samplePlatform galleryDisk
                        tallRequest "abc")) = 200
  /\ (exists img, galleryDisk "uploads/u2-tall.png"%string = Readable img)
  /\ file brokenRequest = Some "uploads/u3-broken.png"%string
  /\ (forall img, galleryDisk "uploads/u3-broken.png"%string <> Readable img)
  /\ statusCode (fst (postProcessJersey samplePlatform galleryDisk
                        brokenRequest "abc")) = 500.
Proof.
  assert (Hs : statusCode (fst (postProcessJersey samplePlatform galleryDisk
                                  tallRequest "abc")) = 200)
    by (vm_compute; reflexivity).
  assert (Hbad : forall img,
            galleryDisk "uploads/u3-broken.png"%string <> Readable img)
    by (intros img; vm_compute; discriminate).
  split; [reflexivity|]. split; [reflexivity|]. split; [exact Hs|].
  split.
  - exact (proj1 (proj2 (@route_answers samplePlatform galleryDisk tallRequest
                           "abc" "uploads/u2-tall.png" eq_refl (-18)%Z eq_refl)
                        Hs)).
  - split; [reflexivity|]. split; [exact Hbad|].
    destruct (proj1 (@route_answers samplePlatform galleryDisk brokenRequest
                       "abc" "uploads/u3-broken.png" eq_refl (-18)%Z eq_refl)
                    (or_introl Hbad)) as [[cause ->] _].
    reflexivity.
Defined.

Lemma post_then_get_witness :
  file tallRequest = Some "uploads/u2-tall.png"%string
  /\ gapOf samplePlatform (bodyGap tallRequest) = Some (-18)%Z
  /\ statusCode (fst (postProcessJersey samplePlatform galleryDisk
                        tallRequest "abc")) = 200
  /\ getImage samplePlatform
       (snd (postProcessJersey samplePlatform galleryDisk tallRequest "abc"))
       "abc"
     = {| statusCode := 200; body := FileBody "outputs/abc.png" |}.
Proof.
  assert (Hne : path_join samplePlatform (outputsDir samplePlatform)
                  (String.append "abc" ".png")
                <> "uploads/u2-tall.png"%string)
    by (apply String.eqb_neq; reflexivity).
  assert (Hs : statusCode (fst (postProcessJersey samplePlatform galleryDisk
                                  tallRequest "abc")) = 200)
    by (vm_compute; reflexivity).
  split; [reflexivity|]. split; [reflexivity|]. split; [exact Hs|].
  exact (proj2 (proj2 (@post_then_get samplePlatform galleryDisk tallRequest
                         "abc" "uploads/u2-tall.png" eq_refl (-18)%Z eq_refl
                         Hne Hs))).
Defined.
